(** * Election poster generator: a model of [src/App.tsx]

    The component keeps twelve pieces of React state and four handlers
    ([handleImageChange], [handleGenerateClick], [handleDownload],
    [handleReset]).  The handlers are embedded as functions on an explicit
    [State] record; the remote services and the browser (image decoding,
    canvas) are the environment and are passed in as records.  JavaScript
    numbers are IEEE binary64 values, modelled by the kernel's primitive
    floats. *)

From Stdlib Require Import ZArith List String Bool Lia.
From Stdlib Require Import PrimFloat FloatOps SpecFloat.
Import ListNotations.

Set Warnings "-inexact-float".

Local Open Scope string_scope.

(** ** JavaScript values the component relies on *)

Module JS.

(** Truthiness of a string: only the empty string is falsy. *)
Definition truthy (s : string) : bool := negb (s =? "").

(** Truthiness of [string | null]. *)
Definition truthy_opt (o : option string) : bool :=
  match o with
  | Some s => truthy s
  | None => false
  end.

(** Truthiness of an object reference or [null] (arrays, [File]s). *)
Definition non_null {A : Type} (o : option A) : bool :=
  match o with
  | Some _ => true
  | None => false
  end.

(** [a || b] on a possibly missing string. *)
Definition or_else (o : option string) (dflt : string) : string :=
  if truthy_opt o then match o with Some s => s | None => dflt end else dflt.

(** A value caught by [catch (err)]: an [Error] carrying a message, or
    anything else. *)
Inductive Thrown : Type :=
| ErrorObject (message : string)
| NonError.

(** How an awaited promise settles. *)
Inductive Settled (A : Type) : Type :=
| Fulfilled (v : A)
| Rejected (err : Thrown).
Arguments Fulfilled {A} v.
Arguments Rejected {A} err.

(** [Promise.all] of two promises: the pair of values when both fulfil,
    otherwise the rejection that happens first. *)
Definition Promise_all {A B : Type} (firstRejectsFirst : bool)
    (a : Settled A) (b : Settled B) : Settled (A * B) :=
  match a, b with
  | Fulfilled x, Fulfilled y => Fulfilled (x, y)
  | Rejected e, Fulfilled _ => Rejected e
  | Fulfilled _, Rejected e => Rejected e
  | Rejected e1, Rejected e2 => Rejected (if firstRejectsFirst then e1 else e2)
  end.

End JS.

(** ** The browser objects used by the download routine *)

Module Dom.

(** An integer as a JavaScript number (exact below 2^53). *)
Definition number_of_Z (z : Z) : float :=
  SF2Prim (binary_normalize prec emax z 0 false).

(** ECMAScript [ToUint32]: NaN and the infinities give 0, a finite number
    is truncated toward zero and reduced modulo 2^32. *)
Definition ToUint32 (x : float) : Z :=
  match Prim2SF x with
  | S754_finite sign m e =>
      let t := Z.shiftl (Z.pos m) e in
      ((if sign then - t else t) mod 4294967296)%Z
  | _ => 0%Z
  end.

(** [canvas.width] and [canvas.height] are [unsigned long] attributes that
    reflect a content attribute with a default (HTML Standard, the canvas
    element; Web IDL, conversion to [unsigned long]): the number assigned
    is converted with [ToUint32], and a value above 2^31 - 1 is replaced by
    the default.  Reading the attribute gives back the stored integer, so
    [canvas.height = 1501.5] followed by [canvas.height] yields 1501. *)
Definition reflect_unsigned_long (dflt : Z) (v : float) : Z :=
  let n := ToUint32 v in
  if (n <=? 2147483647)%Z then n else dflt.

Record Canvas : Type := { width : Z; height : Z }.

(** [document.createElement('canvas')]: 300 by 150. *)
Definition createCanvas : Canvas := {| width := 300; height := 150 |}.

Definition set_width (v : float) (c : Canvas) : Canvas :=
  {| width := reflect_unsigned_long 300 v; height := height c |}.

Definition set_height (v : float) (c : Canvas) : Canvas :=
  {| width := width c; height := reflect_unsigned_long 150 v |}.

(** A decoded [Image]: its source and natural size. *)
Record Image : Type := { src : string; naturalWidth : Z; naturalHeight : Z }.

(** The value of [ctx.font], [`${weight} ${size}px ${family}`], kept in
    parts. *)
Record Font : Type := { weight : Z; sizePx : float; family : string }.

(** What the routine does to the 2D context, in program order. *)
Inductive CanvasOp : Type :=
| DrawImage (image : Image) (dx dy dw dh : float)
| FillText (text : string) (x y : float)
| SetShadowColor (c : string)
| SetShadowBlur (v : float)
| SetShadowOffsetX (v : float)
| SetShadowOffsetY (v : float)
| SetFont (f : Font)
| SetFillStyle (c : string)
| SetTextAlign (a : string)
| SetDirection (d : string).

(** The paint state of a 2D context. *)
Record PaintState : Type := {
  shadowColor : string;
  shadowBlur : float;
  shadowOffsetX : float;
  shadowOffsetY : float;
  font : Font;
  fillStyle : string;
  textAlign : string;
  direction : string
}.

(** The state of a context just returned by [getContext('2d')]. *)
Definition freshPaint : PaintState := {|
  shadowColor := "rgba(0, 0, 0, 0)";
  shadowBlur := 0; shadowOffsetX := 0; shadowOffsetY := 0;
  font := {| weight := 400; sizePx := 10; family := "sans-serif" |};
  fillStyle := "#000000"; textAlign := "start"; direction := "inherit"
|}.

Definition apply_op (st : PaintState) (op : CanvasOp) : PaintState :=
  match op with
  | DrawImage _ _ _ _ _ | FillText _ _ _ => st
  | SetShadowColor c =>
      {| shadowColor := c; shadowBlur := shadowBlur st;
         shadowOffsetX := shadowOffsetX st; shadowOffsetY := shadowOffsetY st;
         font := font st; fillStyle := fillStyle st;
         textAlign := textAlign st; direction := direction st |}
  | SetShadowBlur v =>
      {| shadowColor := shadowColor st; shadowBlur := v;
         shadowOffsetX := shadowOffsetX st; shadowOffsetY := shadowOffsetY st;
         font := font st; fillStyle := fillStyle st;
         textAlign := textAlign st; direction := direction st |}
  | SetShadowOffsetX v =>
      {| shadowColor := shadowColor st; shadowBlur := shadowBlur st;
         shadowOffsetX := v; shadowOffsetY := shadowOffsetY st;
         font := font st; fillStyle := fillStyle st;
         textAlign := textAlign st; direction := direction st |}
  | SetShadowOffsetY v =>
      {| shadowColor := shadowColor st; shadowBlur := shadowBlur st;
         shadowOffsetX := shadowOffsetX st; shadowOffsetY := v;
         font := font st; fillStyle := fillStyle st;
         textAlign := textAlign st; direction := direction st |}
  | SetFont f =>
      {| shadowColor := shadowColor st; shadowBlur := shadowBlur st;
         shadowOffsetX := shadowOffsetX st; shadowOffsetY := shadowOffsetY st;
         font := f; fillStyle := fillStyle st;
         textAlign := textAlign st; direction := direction st |}
  | SetFillStyle c =>
      {| shadowColor := shadowColor st; shadowBlur := shadowBlur st;
         shadowOffsetX := shadowOffsetX st; shadowOffsetY := shadowOffsetY st;
         font := font st; fillStyle := c;
         textAlign := textAlign st; direction := direction st |}
  | SetTextAlign a =>
      {| shadowColor := shadowColor st; shadowBlur := shadowBlur st;
         shadowOffsetX := shadowOffsetX st; shadowOffsetY := shadowOffsetY st;
         font := font st; fillStyle := fillStyle st;
         textAlign := a; direction := direction st |}
  | SetDirection d =>
      {| shadowColor := shadowColor st; shadowBlur := shadowBlur st;
         shadowOffsetX := shadowOffsetX st; shadowOffsetY := shadowOffsetY st;
         font := font st; fillStyle := fillStyle st;
         textAlign := textAlign st; direction := d |}
  end.

(** The two spellings of a fully transparent colour that occur here: the
    keyword the routine assigns and the initial value of [shadowColor]. *)
Definition transparent (c : string) : bool :=
  (c =? "transparent") || (c =? "rgba(0, 0, 0, 0)").

Definition nonzero (v : float) : bool := negb (PrimFloat.eqb v 0).

(** A shadow is painted only when the shadow colour is not fully
    transparent and the blur or one of the offsets is not zero. *)
Definition shadow_active (st : PaintState) : bool :=
  negb (transparent (shadowColor st))
  && (nonzero (shadowBlur st) || nonzero (shadowOffsetX st)
      || nonzero (shadowOffsetY st)).

Definition is_draw (op : CanvasOp) : bool :=
  match op with
  | DrawImage _ _ _ _ _ | FillText _ _ _ => true
  | _ => false
  end.

(** Each draw call together with the paint state it was issued under. *)
Record Painted : Type := { call : CanvasOp; paint : PaintState }.

Fixpoint painted_from (st : PaintState) (ops : list CanvasOp) : list Painted :=
  match ops with
  | [] => []
  | op :: rest =>
      if is_draw op
      then {| call := op; paint := st |} :: painted_from st rest
      else painted_from (apply_op st op) rest
  end.

Definition painted (ops : list CanvasOp) : list Painted :=
  painted_from freshPaint ops.

(** What an observer of the surface sees happen: images and texts being
    drawn, and the shadow switching on or off. *)
Inductive Event : Type :=
| DrewImage (image : Image)
| DrewText (text : string)
| ShadowOn
| ShadowOff.

Definition event_of (st : PaintState) (op : CanvasOp) : list Event :=
  match op with
  | DrawImage image _ _ _ _ => [DrewImage image]
  | FillText text _ _ => [DrewText text]
  | _ =>
      match shadow_active st, shadow_active (apply_op st op) with
      | false, true => [ShadowOn]
      | true, false => [ShadowOff]
      | _, _ => []
      end
  end.

Fixpoint timeline_from (st : PaintState) (ops : list CanvasOp) : list Event :=
  match ops with
  | [] => []
  | op :: rest => event_of st op ++ timeline_from (apply_op st op) rest
  end.

Definition timeline (ops : list CanvasOp) : list Event :=
  timeline_from freshPaint ops.

(** The string [canvas.toDataURL(type)] returns: the bare ["data:,"], or a
    [data:] URL of the given type that encodes the bitmap. *)
Inductive DataURL : Type :=
| NoData
| Encoded (type : string) (bitmap : Canvas).

(** [canvas.toDataURL(type)]: a bitmap with no pixels (no columns or no
    rows) gives ["data:,"], and so does one the browser cannot serialise
    (beyond its size limit); [serialises] is the browser's say on that. *)
Definition toDataURL (serialises : Canvas -> bool) (c : Canvas)
    (type : string) : DataURL :=
  if ((width c =? 0) || (height c =? 0))%Z then NoData
  else if serialises c then Encoded type c
  else NoData.

End Dom.

(** ** The component state and its handlers *)

Module App.
Import JS.

(** The only property of the uploaded [File] that the component reads. *)
Record File : Type := { fileName : string }.

Record State : Type := {
  imageFile : option File;
  previewUrl : option string;
  name : string;
  symbol : string;
  district : string;
  selectedFont : string;
  generatedPosters : option (list string);
  selectedPoster : option string;
  symbolImageUrl : option string;
  isLoading : bool;
  isDownloading : bool;
  error : option string
}.

(** The [useState] initial values, lines 10-21. *)
Definition initial : State := {|
  imageFile := None; previewUrl := None;
  name := ""; symbol := ""; district := ""; selectedFont := "Cairo";
  generatedPosters := None; selectedPoster := None; symbolImageUrl := None;
  isLoading := false; isDownloading := false; error := None
|}.

(** The state setters returned by [useState]. *)
Definition setImageFile (v : option File) (s : State) : State :=
  {| imageFile := v; previewUrl := previewUrl s; name := name s;
     symbol := symbol s; district := district s; selectedFont := selectedFont s;
     generatedPosters := generatedPosters s; selectedPoster := selectedPoster s;
     symbolImageUrl := symbolImageUrl s; isLoading := isLoading s;
     isDownloading := isDownloading s; error := error s |}.

Definition setPreviewUrl (v : option string) (s : State) : State :=
  {| imageFile := imageFile s; previewUrl := v; name := name s;
     symbol := symbol s; district := district s; selectedFont := selectedFont s;
     generatedPosters := generatedPosters s; selectedPoster := selectedPoster s;
     symbolImageUrl := symbolImageUrl s; isLoading := isLoading s;
     isDownloading := isDownloading s; error := error s |}.

Definition setName (v : string) (s : State) : State :=
  {| imageFile := imageFile s; previewUrl := previewUrl s; name := v;
     symbol := symbol s; district := district s; selectedFont := selectedFont s;
     generatedPosters := generatedPosters s; selectedPoster := selectedPoster s;
     symbolImageUrl := symbolImageUrl s; isLoading := isLoading s;
     isDownloading := isDownloading s; error := error s |}.

Definition setSymbol (v : string) (s : State) : State :=
  {| imageFile := imageFile s; previewUrl := previewUrl s; name := name s;
     symbol := v; district := district s; selectedFont := selectedFont s;
     generatedPosters := generatedPosters s; selectedPoster := selectedPoster s;
     symbolImageUrl := symbolImageUrl s; isLoading := isLoading s;
     isDownloading := isDownloading s; error := error s |}.

Definition setDistrict (v : string) (s : State) : State :=
  {| imageFile := imageFile s; previewUrl := previewUrl s; name := name s;
     symbol := symbol s; district := v; selectedFont := selectedFont s;
     generatedPosters := generatedPosters s; selectedPoster := selectedPoster s;
     symbolImageUrl := symbolImageUrl s; isLoading := isLoading s;
     isDownloading := isDownloading s; error := error s |}.

Definition setSelectedFont (v : string) (s : State) : State :=
  {| imageFile := imageFile s; previewUrl := previewUrl s; name := name s;
     symbol := symbol s; district := district s; selectedFont := v;
     generatedPosters := generatedPosters s; selectedPoster := selectedPoster s;
     symbolImageUrl := symbolImageUrl s; isLoading := isLoading s;
     isDownloading := isDownloading s; error := error s |}.

Definition setGeneratedPosters (v : option (list string)) (s : State) : State :=
  {| imageFile := imageFile s; previewUrl := previewUrl s; name := name s;
     symbol := symbol s; district := district s; selectedFont := selectedFont s;
     generatedPosters := v; selectedPoster := selectedPoster s;
     symbolImageUrl := symbolImageUrl s; isLoading := isLoading s;
     isDownloading := isDownloading s; error := error s |}.

Definition setSelectedPoster (v : option string) (s : State) : State :=
  {| imageFile := imageFile s; previewUrl := previewUrl s; name := name s;
     symbol := symbol s; district := district s; selectedFont := selectedFont s;
     generatedPosters := generatedPosters s; selectedPoster := v;
     symbolImageUrl := symbolImageUrl s; isLoading := isLoading s;
     isDownloading := isDownloading s; error := error s |}.

Definition setSymbolImageUrl (v : option string) (s : State) : State :=
  {| imageFile := imageFile s; previewUrl := previewUrl s; name := name s;
     symbol := symbol s; district := district s; selectedFont := selectedFont s;
     generatedPosters := generatedPosters s; selectedPoster := selectedPoster s;
     symbolImageUrl := v; isLoading := isLoading s;
     isDownloading := isDownloading s; error := error s |}.

Definition setIsLoading (v : bool) (s : State) : State :=
  {| imageFile := imageFile s; previewUrl := previewUrl s; name := name s;
     symbol := symbol s; district := district s; selectedFont := selectedFont s;
     generatedPosters := generatedPosters s; selectedPoster := selectedPoster s;
     symbolImageUrl := symbolImageUrl s; isLoading := v;
     isDownloading := isDownloading s; error := error s |}.

Definition setIsDownloading (v : bool) (s : State) : State :=
  {| imageFile := imageFile s; previewUrl := previewUrl s; name := name s;
     symbol := symbol s; district := district s; selectedFont := selectedFont s;
     generatedPosters := generatedPosters s; selectedPoster := selectedPoster s;
     symbolImageUrl := symbolImageUrl s; isLoading := isLoading s;
     isDownloading := v; error := error s |}.

Definition setError (v : option string) (s : State) : State :=
  {| imageFile := imageFile s; previewUrl := previewUrl s; name := name s;
     symbol := symbol s; district := district s; selectedFont := selectedFont s;
     generatedPosters := generatedPosters s; selectedPoster := selectedPoster s;
     symbolImageUrl := symbolImageUrl s; isLoading := isLoading s;
     isDownloading := isDownloading s; error := v |}.

(** *** [handleImageChange], lines 23-32

    [createObjectURL] stands for [URL.createObjectURL]. *)
Definition handleImageChange (createObjectURL : File -> string)
    (file : option File) (s : State) : State :=
  match file with
  | Some f =>
      let s := setImageFile (Some f) s in
      let s := setPreviewUrl (Some (createObjectURL f)) s in
      let s := setGeneratedPosters None s in
      let s := setSelectedPoster None s in
      let s := setSymbolImageUrl None s in
      setError None s
  | None => s
  end.

(** *** [handleReset], lines 160-171 *)
Definition handleReset (s : State) : State :=
  let s := setImageFile None s in
  let s := setPreviewUrl None s in
  let s := setName "" s in
  let s := setSymbol "" s in
  let s := setDistrict "" s in
  let s := setGeneratedPosters None s in
  let s := setSelectedPoster None s in
  let s := setSymbolImageUrl None s in
  let s := setError None s in
  setIsLoading false s.

(** *** [handleGenerateClick], lines 34-74 *)

(** The argument of [generatePoster]. *)
Record ImagePart : Type := { data : string; mimeType : string }.

(** The imported helpers and remote calls ([./utils/fileUtils],
    [./services/geminiService]); their code is outside the component, so
    they are taken as they are used: two promises that may reject, whose
    values may be missing or empty. *)
Record Services : Type := {
  fileToBase64 : File -> Settled string;
  getMimeType : string -> option string;
  generatePoster : ImagePart -> Settled (option (list string));
  generateSymbolImage : string -> Settled (option string);
  posterRejectsFirst : bool
}.

Definition msgMissingFields : string :=
  "Please fill all fields: photo, name, symbol, and district.".
Definition msgNoPosters : string :=
  "The AI model did not return any poster images. Please try again.".
Definition msgNoIcon : string :=
  "The AI model failed to generate an icon for the symbol.".
Definition msgUnexpected : string := "An unexpected error occurred.".

(** [!imageFile || !name || !symbol || !district], line 35. *)
Definition formIncomplete (s : State) : bool :=
  negb (non_null (imageFile s)) || negb (truthy (name s))
  || negb (truthy (symbol s)) || negb (truthy (district s)).

(** Lines 40-44: the synchronous part before the first [await]. *)
Definition generateBegin (s : State) : State :=
  let s := setIsLoading true s in
  let s := setError None s in
  let s := setGeneratedPosters None s in
  let s := setSelectedPoster None s in
  setSymbolImageUrl None s.

(** Lines 47-66, the [try] block: the state it leaves and the value it
    throws, if any.  State written before a [throw] stays written. *)
Definition generateTry (sv : Services) (file : File) (symbolText : string)
    (s : State) : State * option Thrown :=
  match fileToBase64 sv file with
  | Rejected e => (s, Some e)
  | Fulfilled base64Data =>
      let mime := or_else (getMimeType sv (fileName file)) "image/jpeg" in
      match Promise_all (posterRejectsFirst sv)
              (generatePoster sv {| data := base64Data; mimeType := mime |})
              (generateSymbolImage sv symbolText) with
      | Rejected e => (s, Some e)
      | Fulfilled (posterResults, symbolImageResult) =>
          match posterResults with
          | Some ((first :: _) as posters) =>
              let s := setGeneratedPosters (Some posters) s in
              let s := setSelectedPoster (Some first) s in
              if truthy_opt symbolImageResult
              then (setSymbolImageUrl symbolImageResult s, None)
              else (s, Some (ErrorObject msgNoIcon))
          | _ => (s, Some (ErrorObject msgNoPosters))
          end
      end
  end.

(** [err instanceof Error ? err.message : '...'], line 70. *)
Definition errorMessage (err : Thrown) : string :=
  match err with
  | ErrorObject m => m
  | NonError => msgUnexpected
  end.

(** Lines 46-73: [try] / [catch] / [finally], run once the awaited calls
    have settled.  [file] and [symbolText] are the values the callback
    closed over. *)
Definition generateResume (sv : Services) (file : File) (symbolText : string)
    (s : State) : State :=
  let (s, thrown) := generateTry sv file symbolText s in
  let s := match thrown with
           | Some err => setError (Some (errorMessage err)) s
           | None => s
           end in
  setIsLoading false s.

Definition handleGenerateClick (sv : Services) (s : State) : State :=
  if formIncomplete s then setError (Some msgMissingFields) s
  else match imageFile s with
       | Some file => generateResume sv file (symbol s) (generateBegin s)
       | None => setError (Some msgMissingFields) s
       end.

(** *** [handleDownload], lines 76-157 *)

(** The browser as the routine meets it: an image source either decodes
    ([onload], with its natural size) or fails ([onerror]), and
    [getContext('2d')] returns a context or [null], and [toDataURL] can
    serialise a bitmap or not. *)
Inductive ImageLoad : Type :=
| Loaded (naturalWidth naturalHeight : Z)
| LoadError.

Record Browser : Type := {
  decode : string -> ImageLoad;
  context2d : bool;
  serialises : Dom.Canvas -> bool
}.

Definition msgNoContext : string :=
  "Could not create canvas context for download.".
Definition msgSymbolLoad : string :=
  "Could not load symbol icon to create download file.".
Definition msgPosterLoad : string :=
  "Could not load poster image to create download file.".

(** The literal prefix of the caption, line 123. *)
Definition districtPrefix : string := "مرشح عن دائرة ".

(** Lines 104-137: the calls made on the context once it exists.  The
    sizes are read back from the canvas, as the source does. *)
Definition compose (s : State) (posterImage symbolImage : Dom.Image)
    (canvas : Dom.Canvas) : list Dom.CanvasOp :=
  let canvas_width := Dom.number_of_Z (Dom.width canvas) in
  let canvas_height := Dom.number_of_Z (Dom.height canvas) in
  let nameFontSize := (canvas_width / 14)%float in
  let nameY := (canvas_height * 0.82)%float in
  let districtText := districtPrefix ++ district s in
  let districtFontSize := (canvas_width / 35)%float in
  let districtY := (nameY + nameFontSize / 2)%float in
  let symbolSize := (canvas_width / 9)%float in
  let symbolX := (canvas_width / 2 - symbolSize / 2)%float in
  let symbolY := (districtY + districtFontSize)%float in
  [ Dom.DrawImage posterImage 0 0 canvas_width canvas_height;
    Dom.SetShadowColor "rgba(0, 0, 0, 0.4)";
    Dom.SetShadowBlur 10;
    Dom.SetShadowOffsetX 2;
    Dom.SetShadowOffsetY 2;
    Dom.SetFont {| Dom.weight := 900; Dom.sizePx := nameFontSize;
                   Dom.family := selectedFont s |};
    Dom.SetFillStyle "#FFFFFF";
    Dom.SetTextAlign "center";
    Dom.SetDirection "rtl";
    Dom.FillText (name s) (canvas_width / 2)%float nameY;
    Dom.SetFont {| Dom.weight := 700; Dom.sizePx := districtFontSize;
                   Dom.family := selectedFont s |};
    Dom.SetFillStyle "#FFFFFF";
    Dom.FillText districtText (canvas_width / 2)%float districtY;
    Dom.SetShadowColor "transparent";
    Dom.DrawImage symbolImage symbolX symbolY symbolSize symbolSize ].

(** Lines 92-95: the canvas sized from the decoded poster. *)
Definition sizedCanvas (posterImage : Dom.Image) : Dom.Canvas :=
  let canvas := Dom.createCanvas in
  let scale := (1500 / Dom.number_of_Z (Dom.naturalWidth posterImage))%float in
  let canvas := Dom.set_width 1500 canvas in
  Dom.set_height
    (Dom.number_of_Z (Dom.naturalHeight posterImage) * scale)%float canvas.

(** The file handed to the browser by [link.click()], lines 140-143: its
    name, its content [canvas.toDataURL('image/png')], and the canvas
    with the calls that painted it. *)
Record SavedFile : Type := {
  download : string;
  href : Dom.DataURL;
  surface : Dom.Canvas;
  pixels : list Dom.CanvasOp
}.

(** What the image events of one download amount to: the message reported
    (if any), the calls issued on the context, the file saved. *)
Record Outcome : Type := {
  failure : option string;
  drawn : list Dom.CanvasOp;
  saved : option SavedFile
}.

(** Lines 82-156 after the guard: the two nested image loads and the
    [symbolImage.onload] body.  [s] is the state the handler closed
    over. *)
Definition downloadEvents (br : Browser) (s : State)
    (posterSrc symbolSrc : string) : Outcome :=
  match decode br posterSrc with
  | LoadError =>
      {| failure := Some msgPosterLoad; drawn := []; saved := None |}
  | Loaded pw ph =>
      let posterImage :=
        {| Dom.src := posterSrc; Dom.naturalWidth := pw; Dom.naturalHeight := ph |} in
      match decode br symbolSrc with
      | LoadError =>
          {| failure := Some msgSymbolLoad; drawn := []; saved := None |}
      | Loaded sw sh =>
          let symbolImage :=
            {| Dom.src := symbolSrc; Dom.naturalWidth := sw; Dom.naturalHeight := sh |} in
          let canvas := sizedCanvas posterImage in
          if context2d br then
            let ops := compose s posterImage symbolImage canvas in
            {| failure := None; drawn := ops;
               saved := Some {| download := "my-election-poster.png";
                                href := Dom.toDataURL (serialises br) canvas
                                          "image/png";
                                surface := canvas; pixels := ops |} |}
          else
            {| failure := Some msgNoContext; drawn := []; saved := None |}
      end
  end.

(** Lines 79-80. *)
Definition downloadBegin (s : State) : State :=
  setError None (setIsDownloading true s).

(** The state updates of the event handlers: every one of them ends with
    [setIsDownloading(false)], the failing ones after [setError]. *)
Definition downloadSettle (o : Outcome) (s : State) : State :=
  let s := match failure o with
           | Some m => setError (Some m) s
           | None => s
           end in
  setIsDownloading false s.

Definition idle : Outcome := {| failure := None; drawn := []; saved := None |}.

(** The whole handler, with the image events run to completion.  Line 77
    returns at once when there is no poster or no icon. *)
Definition handleDownload (br : Browser) (s : State) : State * Outcome :=
  match selectedPoster s, symbolImageUrl s with
  | Some posterSrc, Some symbolSrc =>
      if truthy posterSrc && truthy symbolSrc then
        let o := downloadEvents br s posterSrc symbolSrc in
        (downloadSettle o (downloadBegin s), o)
      else (s, idle)
  | _, _ => (s, idle)
  end.

(** *** The output section, lines 249-305

    Four conditional blocks, each rendered or not on its own test. *)
Inductive Panel : Type :=
| SpinnerPanel
| ErrorPanel (message : string)
| ResultPanel (posters : list string) (selected : string)
| PlaceholderPanel.

Definition outputSection (s : State) : list Panel :=
  (if isLoading s then [SpinnerPanel] else [])
  ++ (match error s with
      | Some message =>
          if negb (isLoading s) && truthy message then [ErrorPanel message] else []
      | None => []
      end)
  ++ (match generatedPosters s, selectedPoster s with
      | Some posters, Some selected =>
          if negb (isLoading s) && negb (truthy_opt (error s)) && truthy selected
          then [ResultPanel posters selected] else []
      | _, _ => []
      end)
  ++ (if negb (isLoading s) && negb (truthy_opt (error s))
         && negb (non_null (generatedPosters s))
      then [PlaceholderPanel] else []).

(** Lines 276-286: one button per stored candidate, inside the result
    panel only. *)
Definition thumbnails (s : State) : list string :=
  flat_map (fun panel => match panel with
                         | ResultPanel posters _ => posters
                         | _ => []
                         end) (outputSection s).

(** Line 280: [onClick={() => setSelectedPoster(poster)}]. *)
Definition selectPoster (poster : string) (s : State) : State :=
  setSelectedPoster (Some poster) s.

(** Line 281: the candidates drawn with the red border,
    [selectedPoster === poster]. *)
Definition highlighted (s : State) : list string :=
  match generatedPosters s, selectedPoster s with
  | Some posters, Some selected => filter (String.eqb selected) posters
  | _, _ => []
  end.

(** *** The component as a transition system

    One step is one uninterrupted run of JavaScript: an event handler up
    to its first [await], the continuation after an [await], or an image
    event.  The handlers are allowed in every state (the [disabled]
    attributes only remove steps), and a continuation may resume in any
    state with whatever its closure captured; a thumbnail can only be
    clicked where it is rendered. *)
Inductive step : State -> State -> Prop :=
| step_imageChange (mk : File -> string) (file : option File) (s : State) :
    step s (handleImageChange mk file s)
| step_setName (v : string) (s : State) : step s (setName v s)
| step_setDistrict (v : string) (s : State) : step s (setDistrict v s)
| step_setSymbol (v : string) (s : State) : step s (setSymbol v s)
| step_setSelectedFont (v : string) (s : State) : step s (setSelectedFont v s)
| step_generateRefused (s : State) :
    formIncomplete s = true -> step s (setError (Some msgMissingFields) s)
| step_generateBegin (s : State) :
    formIncomplete s = false -> step s (generateBegin s)
| step_generateResume (sv : Services) (file : File) (symbolText : string)
    (s : State) :
    step s (generateResume sv file symbolText s)
| step_select (poster : string) (s : State) :
    In poster (thumbnails s) -> step s (selectPoster poster s)
| step_downloadBegin (s : State) :
    truthy_opt (selectedPoster s) = true ->
    truthy_opt (symbolImageUrl s) = true ->
    step s (downloadBegin s)
| step_downloadSettle (o : Outcome) (s : State) : step s (downloadSettle o s)
| step_reset (s : State) : step s (handleReset s).

Inductive reachable : State -> Prop :=
| reachable_initial : reachable initial
| reachable_step (s s' : State) : reachable s -> step s s' -> reachable s'.

(** The selection points into the stored candidates. *)
Definition selection_consistent (s : State) : Prop :=
  forall poster, selectedPoster s = Some poster ->
    exists posters, generatedPosters s = Some posters /\ In poster posters.

End App.

(** ** The layout as the specification words it (section 4.2) *)

Module Spec.
Local Open Scope float_scope.

Record LayoutGeometry : Type := {
  canvasWidth : float;
  canvasHeight : float;
  nameFontSizePx : float;
  nameX : float;
  nameBaselineY : float;
  captionFontSizePx : float;
  captionX : float;
  captionBaselineY : float;
  iconSizePx : float;
  iconX : float;
  iconY : float
}.

(** The name, caption and icon rules of section 4.2 on a canvas of the
    given size; "horizontally centered" is the centre line
    [canvasWidth / 2]. *)
Definition layoutOn (canvasWidth canvasHeight : float) : LayoutGeometry :=
  let nameFontSize := canvasWidth / 14 in
  let nameBaselineY := canvasHeight * 0.82 in
  let captionFontSize := canvasWidth / 35 in
  let captionBaselineY := nameBaselineY + nameFontSize / 2 in
  let size := canvasWidth / 9 in
  {| canvasWidth := canvasWidth;
     canvasHeight := canvasHeight;
     nameFontSizePx := nameFontSize;
     nameX := canvasWidth / 2;
     nameBaselineY := nameBaselineY;
     captionFontSizePx := captionFontSize;
     captionX := canvasWidth / 2;
     captionBaselineY := captionBaselineY;
     iconSizePx := size;
     iconX := canvasWidth / 2 - size / 2;
     iconY := captionBaselineY + captionFontSize |}.

(** [scale = T / W], [canvasWidth = T], [canvasHeight = H * scale], with
    the fixed target width [T] = 1500. *)
Definition LayoutCalculator (W H : float) : LayoutGeometry :=
  let T := 1500 in
  let scale := T / W in
  layoutOn T (H * scale).

End Spec.

(** ** What a finished download shows of its layout *)

Module Observed.
Import App.

(** The geometry read off the saved file: the canvas size, and the
    arguments and fonts of the four draw calls. *)
Definition geometry (f : SavedFile) : option Spec.LayoutGeometry :=
  match Dom.painted (pixels f) with
  | [ {| Dom.call := Dom.DrawImage _ _ _ _ _ |};
      {| Dom.call := Dom.FillText _ nx ny; Dom.paint := namePaint |};
      {| Dom.call := Dom.FillText _ cx cy; Dom.paint := captionPaint |};
      {| Dom.call := Dom.DrawImage _ ix iy iw _ |} ] =>
      Some {| Spec.canvasWidth := Dom.number_of_Z (Dom.width (surface f));
              Spec.canvasHeight := Dom.number_of_Z (Dom.height (surface f));
              Spec.nameFontSizePx := Dom.sizePx (Dom.font namePaint);
              Spec.nameX := nx;
              Spec.nameBaselineY := ny;
              Spec.captionFontSizePx := Dom.sizePx (Dom.font captionPaint);
              Spec.captionX := cx;
              Spec.captionBaselineY := cy;
              Spec.iconSizePx := iw;
              Spec.iconX := ix;
              Spec.iconY := iy |}
  | _ => None
  end.

(** The geometry of the download of a poster that decodes to [W] by [H]. *)
Definition downloadGeometry (br : Browser) (s : State) : option Spec.LayoutGeometry :=
  match saved (snd (handleDownload br s)) with
  | Some f => geometry f
  | None => None
  end.

(** Closeness of two numbers, for the rounded figures of the
    specification. *)
Definition within (tolerance a b : float) : bool :=
  PrimFloat.leb (PrimFloat.abs (a - b)) tolerance.

End Observed.

(** ** Vocabulary for the statements about one generation request *)

Module Request.
Import JS App.

(** The click passed the form check, the photo was encoded, and the two
    remote calls settled as [poster] and [icon]. *)
Definition settles (sv : Services) (s : State)
    (poster : Settled (option (list string)))
    (icon : Settled (option string)) : Prop :=
  exists file base64Data,
    formIncomplete s = false
    /\ imageFile s = Some file
    /\ fileToBase64 sv file = Fulfilled base64Data
    /\ generatePoster sv
         {| data := base64Data;
            mimeType := or_else (getMimeType sv (fileName file)) "image/jpeg" |}
       = poster
    /\ generateSymbolImage sv (symbol s) = icon.

(** The poster call produced at least one candidate
    ([posterResults && posterResults.length > 0]). *)
Definition hasCandidates (posterResults : option (list string)) : bool :=
  match posterResults with
  | Some (_ :: _) => true
  | _ => false
  end.

(** No candidate set, no selection and no icon are stored. *)
Definition nothingKept (s : State) : Prop :=
  generatedPosters s = None /\ selectedPoster s = None
  /\ symbolImageUrl s = None.

(** The user clicks thumbnails one after the other. *)
Definition selectAll (picks : list string) (s : State) : State :=
  fold_left (fun st poster => selectPoster poster st) picks s.

End Request.

(** ** Vocabulary for the statements about one download *)

Module Saving.
Import JS App.

(** The guard of line 77 lets the click through, with these two sources. *)
Definition canDownload (s : State) (posterSrc symbolSrc : string) : Prop :=
  selectedPoster s = Some posterSrc
  /\ symbolImageUrl s = Some symbolSrc
  /\ truthy posterSrc = true
  /\ truthy symbolSrc = true.

(** A successful execution: both images decode (to [posterImage] and
    [symbolImage]) and the canvas has a 2D context. *)
Definition succeeds (br : Browser) (s : State)
    (posterImage symbolImage : Dom.Image) : Prop :=
  canDownload s (Dom.src posterImage) (Dom.src symbolImage)
  /\ decode br (Dom.src posterImage)
     = Loaded (Dom.naturalWidth posterImage) (Dom.naturalHeight posterImage)
  /\ decode br (Dom.src symbolImage)
     = Loaded (Dom.naturalWidth symbolImage) (Dom.naturalHeight symbolImage)
  /\ context2d br = true.

(** The shadow settings in force for a draw call. *)
Definition shadowOf (p : Dom.Painted) : string * float * float * float :=
  (Dom.shadowColor (Dom.paint p), Dom.shadowBlur (Dom.paint p),
   Dom.shadowOffsetX (Dom.paint p), Dom.shadowOffsetY (Dom.paint p)).

(** The figures of the 1000 by 1000 scenario as the specification gives
    them: the rounded ones are read to the precision they are printed
    with (one decimal, or the unit for the icon's 583). *)
Definition scenarioAsSpecified (g : Spec.LayoutGeometry) : Prop :=
  Spec.canvasWidth g = 1500%float
  /\ Spec.canvasHeight g = 1500%float
  /\ Spec.nameBaselineY g = 1230%float
  /\ Observed.within 0.1 (Spec.captionBaselineY g) 1283.6 = true
  /\ Observed.within 1 (Spec.iconX g) 583 = true
  /\ Observed.within 0.1 (Spec.iconY g) (1283.6 + 42.9) = true.

(** The same with the icon's left edge where the code puts it. *)
Definition scenarioAsComputed (g : Spec.LayoutGeometry) : Prop :=
  Spec.canvasWidth g = 1500%float
  /\ Spec.canvasHeight g = 1500%float
  /\ Spec.nameBaselineY g = 1230%float
  /\ Observed.within 0.1 (Spec.captionBaselineY g) 1283.6 = true
  /\ Observed.within 1 (Spec.iconX g) 667 = true
  /\ Observed.within 0.1 (Spec.iconY g) (1283.6 + 42.9) = true.

End Saving.

(** ** Sample data *)

Module Sample.
Import JS App.

Definition photo : File := {| fileName := "me.png" |}.

(** A filled-in form, nothing generated yet. *)
Definition filled : State :=
  setDistrict "Example" (setSymbol "palm" (setName "Test Name"
    (handleImageChange (fun _ => "blob:1") (Some photo) initial))).

(** Services returning [posters] and [icon]. *)
Definition returning (posters : option (list string)) (icon : option string)
    : Services :=
  {| fileToBase64 := fun _ => Fulfilled "AAAA";
     getMimeType := fun _ => Some "image/png";
     generatePoster := fun _ => Fulfilled posters;
     generateSymbolImage := fun _ => Fulfilled icon;
     posterRejectsFirst := true |}.

(** A state with two candidates and an icon. *)
Definition ready : State :=
  handleGenerateClick (returning (Some ["poster-a"; "poster-b"]) (Some "icon")) filled.

(** A browser in which the poster decodes to [W] by [H] and the icon to
    64 by 64, and every bitmap can be serialised. *)
Definition browser (W H : Z) (ctx : bool) : Browser :=
  {| decode := fun src => if src =? "icon" then Loaded 64 64 else Loaded W H;
     context2d := ctx;
     serialises := fun _ => true |}.

End Sample.

(** ** The controls of the page *)

Module Controls.
Import JS App.

(** Line 173. *)
Definition isFormComplete (s : State) : bool :=
  non_null (imageFile s) && truthy (name s) && truthy (symbol s)
  && truthy (district s).

(** Line 237: [disabled={!isFormComplete || isLoading}]. *)
Definition generateDisabled (s : State) : bool :=
  negb (isFormComplete s) || isLoading s.

(** Line 240: the reset button is rendered under [generatedPosters &&]. *)
Definition resetRendered (s : State) : bool := non_null (generatedPosters s).

(** Line 257: the test in front of the result panel, which holds the
    thumbnails and the download button. *)
Definition resultRendered (s : State) : bool :=
  negb (isLoading s) && negb (truthy_opt (error s))
  && non_null (generatedPosters s) && truthy_opt (selectedPoster s).

(** Line 290: [disabled={isDownloading}]. *)
Definition downloadDisabled (s : State) : bool := isDownloading s.

(** What a click on the generate button does before anything is awaited
    (lines 35-44), and the closure left waiting: the file and the symbol
    text the callback was created with. *)
Definition generateClick (s : State) : State * option (File * string) :=
  if formIncomplete s then (setError (Some msgMissingFields) s, None)
  else match imageFile s with
       | Some file => (generateBegin s, Some (file, symbol s))
       | None => (setError (Some msgMissingFields) s, None)
       end.

(** What a click on the download button does at once (lines 77-84), and
    the closure left waiting on the image events: the state the handler
    was created with and the two sources. *)
Definition downloadClick (s : State) : State * option (State * string * string) :=
  match selectedPoster s, symbolImageUrl s with
  | Some posterSrc, Some symbolSrc =>
      if truthy posterSrc && truthy symbolSrc
      then (downloadBegin s, Some (s, posterSrc, symbolSrc))
      else (s, None)
  | _, _ => (s, None)
  end.

End Controls.

(** ** The page with its requests in flight

    The browser runs one piece of JavaScript at a time: an event handler
    up to its first [await], the rest of [handleGenerateClick] once its
    promises have settled, or the image events of a download.  A control
    can be used only where it is rendered and not disabled. *)

Module Page.
Import JS App Controls.
Local Open Scope list_scope.

Record Page : Type := {
  ui : State;
  generating : list (File * string);
  downloading : list (State * string * string)
}.

Definition boot : Page :=
  {| ui := initial; generating := []; downloading := [] |}.

Definition show (s : State) (pg : Page) : Page :=
  {| ui := s; generating := generating pg; downloading := downloading pg |}.

Definition optional {A : Type} (o : option A) : list A :=
  match o with
  | Some a => [a]
  | None => []
  end.

Inductive act : Page -> Page -> Prop :=
| act_upload (mk : File -> string) (file : option File) (pg : Page) :
    act pg (show (handleImageChange mk file (ui pg)) pg)
| act_typeName (v : string) (pg : Page) : act pg (show (setName v (ui pg)) pg)
| act_typeDistrict (v : string) (pg : Page) :
    act pg (show (setDistrict v (ui pg)) pg)
| act_typeSymbol (v : string) (pg : Page) :
    act pg (show (setSymbol v (ui pg)) pg)
| act_pickFont (v : string) (pg : Page) :
    act pg (show (setSelectedFont v (ui pg)) pg)
| act_clickGenerate (pg : Page) :
    generateDisabled (ui pg) = false ->
    act pg {| ui := fst (generateClick (ui pg));
              generating := generating pg ++ optional (snd (generateClick (ui pg)));
              downloading := downloading pg |}
| act_generationSettles (sv : Services) (file : File) (symbolText : string)
    (before after : list (File * string)) (pg : Page) :
    generating pg = before ++ (file, symbolText) :: after ->
    act pg {| ui := generateResume sv file symbolText (ui pg);
              generating := before ++ after;
              downloading := downloading pg |}
| act_clickThumbnail (poster : string) (pg : Page) :
    In poster (thumbnails (ui pg)) ->
    act pg (show (selectPoster poster (ui pg)) pg)
| act_clickDownload (pg : Page) :
    resultRendered (ui pg) = true ->
    downloadDisabled (ui pg) = false ->
    act pg {| ui := fst (downloadClick (ui pg));
              generating := generating pg;
              downloading := downloading pg ++ optional (snd (downloadClick (ui pg))) |}
| act_imagesSettle (br : Browser) (closed : State) (posterSrc symbolSrc : string)
    (before after : list (State * string * string)) (pg : Page) :
    downloading pg = before ++ (closed, posterSrc, symbolSrc) :: after ->
    act pg {| ui := downloadSettle (downloadEvents br closed posterSrc symbolSrc) (ui pg);
              generating := generating pg;
              downloading := before ++ after |}
| act_clickReset (pg : Page) :
    resetRendered (ui pg) = true ->
    act pg (show (handleReset (ui pg)) pg).

Inductive reached : Page -> Prop :=
| reached_boot : reached boot
| reached_act (pg pg' : Page) : reached pg -> act pg pg' -> reached pg'.

(** What holds of every page the user can bring about. *)
Record Sound (pg : Page) : Prop := {
  one_generation :
    (generating pg = [] /\ isLoading (ui pg) = false)
    \/ (exists waiting, generating pg = [waiting]
                        /\ isLoading (ui pg) = true
                        /\ generatedPosters (ui pg) = None
                        /\ selectedPoster (ui pg) = None
                        /\ symbolImageUrl (ui pg) = None);
  one_download :
    (downloading pg = [] /\ isDownloading (ui pg) = false)
    \/ (exists waiting, downloading pg = [waiting]
                        /\ isDownloading (ui pg) = true);
  icon_or_error :
    non_null (generatedPosters (ui pg)) = true ->
    truthy_opt (symbolImageUrl (ui pg)) = false ->
    truthy_opt (error (ui pg)) = true;
  selection_with_set :
    non_null (generatedPosters (ui pg)) = non_null (selectedPoster (ui pg))
}.

End Page.

(** ** Where the icon ends up on the canvas *)

Module Fit.

(** The bottom edge of the icon. *)
Definition iconBottom (g : Spec.LayoutGeometry) : float :=
  (Spec.iconY g + Spec.iconSizePx g)%float.

(** The icon reaches below the bottom edge of a canvas [h] pixels high. *)
Definition cutOff (h : Z) : bool :=
  let g := Spec.layoutOn 1500 (Dom.number_of_Z h) in
  PrimFloat.ltb (Spec.canvasHeight g) (iconBottom g).

(** [cutOff] on every height from [from] upwards, [count] of them. *)
Definition cutOffOn (from : Z) (count : nat) (expected : bool) : bool :=
  forallb (fun k => Bool.eqb (cutOff (from + Z.of_nat k)) expected) (seq 0 count).

End Fit.

(** ** Sample pages *)

Module Pages.
Import App Page.

(** The form filled in, nothing requested yet. *)
Definition formFilled : Page :=
  {| ui := Sample.filled; generating := []; downloading := [] |}.

(** The generate button was clicked, the calls have not returned. *)
Definition requestInFlight : Page :=
  {| ui := generateBegin Sample.filled;
     generating := [(Sample.photo, "palm")];
     downloading := [] |}.

(** Two candidates and an icon came back. *)
Definition resultsShown : Page :=
  {| ui := Sample.ready; generating := []; downloading := [] |}.

(** The download button was clicked, the images have not loaded. *)
Definition downloadInFlight : Page :=
  {| ui := downloadBegin Sample.ready;
     generating := [];
     downloading := [(Sample.ready, "poster-a", "icon")] |}.

End Pages.

(** * Properties *)

Import JS App.

(** ** Generation *)

Section Generation.
Import Request.

Lemma handleGenerateClick_settled sv s poster icon :
  settles sv s poster icon ->
  handleGenerateClick sv s =
    let s0 := generateBegin s in
    match Promise_all (posterRejectsFirst sv) poster icon with
    | Rejected e => setIsLoading false (setError (Some (errorMessage e)) s0)
    | Fulfilled (Some ((first :: _) as posters), symbolImageResult) =>
        let s1 := setSelectedPoster (Some first)
                    (setGeneratedPosters (Some posters) s0) in
        if truthy_opt symbolImageResult
        then setIsLoading false (setSymbolImageUrl symbolImageResult s1)
        else setIsLoading false (setError (Some msgNoIcon) s1)
    | Fulfilled (_, _) =>
        setIsLoading false (setError (Some msgNoPosters) s0)
    end.
Proof.
  intros (file & base64Data & Hform & Hfile & Hb64 & Hposter & Hicon).
  unfold handleGenerateClick, generateResume, generateTry.
  rewrite Hform, Hfile, Hb64, Hposter, Hicon.
  destruct poster as [[[|first rest]|]|e1], icon as [symbolImageResult|e2];
    cbn [Promise_all]; try reflexivity.
  destruct (truthy_opt symbolImageResult); reflexivity.
Qed.

Lemma settles_sample posters icon :
  settles (Sample.returning posters icon) Sample.filled
          (Fulfilled posters) (Fulfilled icon).
Proof.
  exists Sample.photo, "AAAA". repeat split; reflexivity.
Qed.

(** C7.  When the poster call returns an empty list of candidates, the
    request ends as a failure: the error holds a message (the "no poster
    images" message whenever the icon call returned at all, the rejection's
    message otherwise), no candidate set, selection or icon is stored,
    loading is over, and the output section never shows the result panel. *)
Theorem empty_candidate_list_fails sv s icon :
  settles sv s (Fulfilled (Some [])) icon ->
  let s' := handleGenerateClick sv s in
  let message := match icon with
                 | Rejected e => errorMessage e
                 | Fulfilled _ => msgNoPosters
                 end in
  error s' = Some message
  /\ generatedPosters s' = None
  /\ selectedPoster s' = None
  /\ symbolImageUrl s' = None
  /\ isLoading s' = false
  /\ outputSection s'
     = (if truthy message then [ErrorPanel message] else [PlaceholderPanel]).
Proof.
  intros H s' message. subst s'.
  rewrite (handleGenerateClick_settled _ _ _ _ H).
  destruct icon as [symbolImageResult|e]; subst message;
    cbn [Promise_all]; unfold outputSection; cbn.
  - repeat split; reflexivity.
  - repeat split; try reflexivity.
    destruct (truthy (errorMessage e)); reflexivity.
Qed.

Lemma empty_candidate_list_fails_sample :
  error (handleGenerateClick (Sample.returning (Some []) (Some "icon")) Sample.filled)
  = Some msgNoPosters.
Proof.
  exact (proj1 (empty_candidate_list_fails _ _ _
                  (settles_sample (Some []) (Some "icon")))).
Defined.

(** What a request leaves behind when both calls return and exactly one
    of them returns a usable result: the error is set, loading is over, no
    icon is stored, and the output section shows the error panel only.
    When the poster call is the one that returned nothing, no candidate
    set and no selection are stored; when the icon call is, lines 56-57
    have already stored the candidates and the throw of line 65 leaves
    them there. *)
Theorem partial_success_reports_failure sv s posterResults symbolImageResult :
  settles sv s (Fulfilled posterResults) (Fulfilled symbolImageResult) ->
  hasCandidates posterResults = negb (truthy_opt symbolImageResult) ->
  let s' := handleGenerateClick sv s in
  let message := if hasCandidates posterResults then msgNoIcon else msgNoPosters in
  error s' = Some message
  /\ isLoading s' = false
  /\ symbolImageUrl s' = None
  /\ outputSection s' = [ErrorPanel message]
  /\ thumbnails s' = []
  /\ (hasCandidates posterResults = false ->
      generatedPosters s' = None /\ selectedPoster s' = None)
  /\ (hasCandidates posterResults = true ->
      exists first rest,
        posterResults = Some (first :: rest)
        /\ generatedPosters s' = Some (first :: rest)
        /\ selectedPoster s' = Some first).
Proof.
  intros H Hone s' message. subst s' message.
  rewrite (handleGenerateClick_settled _ _ _ _ H).
  unfold thumbnails, outputSection.
  destruct posterResults as [[|first rest]|]; cbn in Hone |- *.
  - repeat split; try reflexivity; discriminate.
  - destruct (truthy_opt symbolImageResult); [discriminate|].
    cbn. repeat split; try reflexivity; try discriminate.
    intros _. exists first, rest. repeat split.
  - repeat split; try reflexivity; discriminate.
Qed.

Lemma partial_success_reports_failure_sample :
  outputSection
    (handleGenerateClick (Sample.returning (Some ["poster-a"; "poster-b"]) None)
                         Sample.filled)
  = [ErrorPanel msgNoIcon].
Proof.
  exact (proj1 (proj2 (proj2 (proj2
           (partial_success_reports_failure _ _ _ _
              (settles_sample (Some ["poster-a"; "poster-b"]) None)
              eq_refl))))).
Defined.

(** C1.  The code breaks the claim where the poster call returns two
    candidates and the icon call returns nothing: the request fails with
    the "no icon" message, yet the two candidates and the selection of the
    first are still stored afterwards (lines 56-57 run before the icon is
    checked at line 62), and the reset button is rendered.  In the mirror
    case, no candidates and an icon returned, nothing is stored, as the
    claim says. *)
Lemma partial_success_keeps_posters :
  let sv := Sample.returning (Some ["poster-a"; "poster-b"]) None in
  let kept := handleGenerateClick sv Sample.filled in
  let mirror :=
    handleGenerateClick (Sample.returning (Some []) (Some "icon")) Sample.filled in
  settles sv Sample.filled (Fulfilled (Some ["poster-a"; "poster-b"])) (Fulfilled None)
  /\ error kept = Some msgNoIcon
  /\ generatedPosters kept = Some ["poster-a"; "poster-b"]
  /\ selectedPoster kept = Some "poster-a"
  /\ symbolImageUrl kept = None
  /\ Controls.resetRendered kept = true
  /\ ~ nothingKept kept
  /\ error mirror = Some msgNoPosters
  /\ nothingKept mirror
  /\ Controls.resetRendered mirror = false.
Proof.
  split; [apply settles_sample|].
  do 5 (split; [reflexivity|]).
  split; [intros (Hposters & _); discriminate Hposters|].
  repeat split.
Qed.

End Generation.

(** ** Selection *)

Section Selection.
Import Request.

Lemma last_cons_default (p : string) picks d : last (p :: picks) d = last picks p.
Proof.
  revert p d. induction picks as [|q picks IH]; intros p d; [reflexivity|].
  change (last (p :: q :: picks) d) with (last (q :: picks) d).
  rewrite (IH q d). symmetry. apply IH.
Qed.

Lemma setSelectedPoster_same s sel :
  selectedPoster s = Some sel -> setSelectedPoster (Some sel) s = s.
Proof. destruct s; cbn; intros ->; reflexivity. Qed.

(** A run of clicks amounts to one assignment of the selection. *)
Lemma selectAll_selection picks : forall s sel,
  selectedPoster s = Some sel ->
  selectAll picks s = setSelectedPoster (Some (last picks sel)) s.
Proof.
  induction picks as [|p picks IH]; intros s sel Hsel.
  - cbn. symmetry. now apply setSelectedPoster_same.
  - change (selectAll (p :: picks) s) with (selectAll picks (selectPoster p s)).
    rewrite (IH (selectPoster p s) p eq_refl), last_cons_default.
    destruct s; reflexivity.
Qed.

Lemma last_in (posters picks : list string) sel :
  In sel posters -> Forall (fun p => In p posters) picks ->
  In (last picks sel) posters.
Proof.
  intros Hsel Hall. revert sel Hsel.
  induction Hall as [|p picks Hp _ IH]; intros sel Hsel; [exact Hsel|].
  rewrite last_cons_default. now apply IH.
Qed.

Lemma one_highlighted (posters : list string) sel :
  NoDup posters -> In sel posters ->
  List.length (filter (String.eqb sel) posters) = 1.
Proof.
  induction 1 as [|p posters Hnotin Hnodup IH]; intros Hin; [destruct Hin|].
  cbn [filter]. destruct (String.eqb_spec sel p) as [->|Hne].
  - cbn [List.length]. f_equal.
    assert (Hnone : forall l, ~ In p l -> filter (String.eqb p) l = []).
    { induction l as [|q l IHl]; intros Hq; [reflexivity|].
      cbn [filter]. destruct (String.eqb_spec p q) as [->|_].
      - exfalso. apply Hq. now left.
      - apply IHl. intros Hl. apply Hq. now right. }
    now rewrite Hnone.
  - apply IH. destruct Hin as [->|Hin]; [contradiction Hne; reflexivity|exact Hin].
Qed.

(** C6.  A generation that returns the candidates [first :: rest] and an
    icon stores all of them and selects [first]; whatever candidates the
    user then clicks, the state is the one after generation with only the
    selection replaced (by the last click): the stored set is the same
    list, the selection is one of its members, and among distinct
    candidates exactly one thumbnail is highlighted. *)
Theorem generation_stores_all_selects_first sv s first rest icon :
  settles sv s (Fulfilled (Some (first :: rest))) (Fulfilled (Some icon)) ->
  truthy icon = true ->
  let posters := first :: rest in
  let s' := handleGenerateClick sv s in
  generatedPosters s' = Some posters
  /\ selectedPoster s' = Some first
  /\ symbolImageUrl s' = Some icon
  /\ error s' = None
  /\ forall picks, Forall (fun p => In p posters) picks ->
       let s'' := selectAll picks s' in
       s'' = setSelectedPoster (Some (last picks first)) s'
       /\ generatedPosters s'' = Some posters
       /\ selectedPoster s'' = Some (last picks first)
       /\ In (last picks first) posters
       /\ (NoDup posters -> List.length (highlighted s'') = 1).
Proof.
  intros H Hicon posters s'. subst posters s'.
  rewrite (handleGenerateClick_settled _ _ _ _ H).
  cbn [Promise_all truthy_opt]. rewrite Hicon. cbv zeta.
  match goal with
  | |- generatedPosters ?st = _ /\ _ => set (s1 := st)
  end.
  assert (Hs1 : selectedPoster s1 = Some first) by reflexivity.
  do 4 (split; [reflexivity|]).
  intros picks Hall. cbv zeta.
  assert (Hin : In (last picks first) (first :: rest))
    by (apply last_in; [now left|assumption]).
  rewrite (selectAll_selection picks s1 first Hs1).
  repeat split; try reflexivity; try assumption.
  intros Hnodup.
  change (List.length (filter (String.eqb (last picks first)) (first :: rest)) = 1).
  now apply one_highlighted.
Qed.

Lemma generation_stores_all_selects_first_sample :
  generatedPosters Sample.ready = Some ["poster-a"; "poster-b"]
  /\ selectedPoster Sample.ready = Some "poster-a".
Proof.
  pose proof (generation_stores_all_selects_first _ _ _ _ _
                (settles_sample (Some ["poster-a"; "poster-b"]) (Some "icon"))
                eq_refl) as (Hset & Hsel & _).
  split; [exact Hset|exact Hsel].
Defined.

End Selection.

(** ** The selection invariant *)

Section Invariant.

Lemma selection_consistent_frame s s' :
  generatedPosters s' = generatedPosters s ->
  selectedPoster s' = selectedPoster s ->
  selection_consistent s -> selection_consistent s'.
Proof.
  unfold selection_consistent. intros -> -> H. exact H.
Qed.

Lemma selection_consistent_cleared s :
  selectedPoster s = None -> selection_consistent s.
Proof.
  unfold selection_consistent. intros -> poster Hsel. discriminate Hsel.
Qed.

Lemma selection_consistent_member s posters poster :
  generatedPosters s = Some posters -> selectedPoster s = Some poster ->
  In poster posters -> selection_consistent s.
Proof.
  unfold selection_consistent. intros Hset Hsel Hin p Hp.
  rewrite Hsel in Hp. injection Hp as <-. now exists posters.
Qed.

(** A rendered thumbnail shows a stored candidate. *)
Lemma thumbnails_stored s poster :
  In poster (thumbnails s) ->
  exists posters, generatedPosters s = Some posters /\ In poster posters.
Proof.
  unfold thumbnails, outputSection.
  rewrite !flat_map_app.
  destruct (isLoading s), (error s) as [message|],
    (generatedPosters s) as [posters|], (selectedPoster s) as [selected|];
    cbn; try tauto;
    repeat match goal with
           | |- context [if ?b then _ else _] => destruct b; cbn
           end;
    try tauto;
    rewrite ?app_nil_r; intros Hin; now exists posters.
Qed.

Create HintDb selection.
#[local] Hint Resolve selection_consistent_cleared : selection.

Lemma generateResume_consistent sv file symbolText s :
  selection_consistent s ->
  selection_consistent (generateResume sv file symbolText s).
Proof.
  intros H. unfold generateResume, generateTry.
  destruct (fileToBase64 sv file) as [base64Data|e];
    [|now apply (selection_consistent_frame s)].
  destruct (Promise_all _ _ _) as [[posterResults symbolImageResult]|e];
    [|now apply (selection_consistent_frame s)].
  destruct posterResults as [[|first rest]|];
    try now apply (selection_consistent_frame s).
  destruct (truthy_opt symbolImageResult);
    apply (selection_consistent_member _ (first :: rest) first);
    try reflexivity; now left.
Qed.

(** Every transition keeps the selection inside the stored candidates. *)
Lemma step_consistent s s' :
  selection_consistent s -> step s s' -> selection_consistent s'.
Proof.
  intros H Hstep.
  destruct Hstep as
    [mk file s | v s | v s | v s | v s | s Hform | s Hform
    | sv file symbolText s | poster s Hin | s Hposter Hicon | o s | s];
    try (now apply (selection_consistent_frame s));
    auto with selection.
  - destruct file as [f|]; [auto with selection|exact H].
  - now apply generateResume_consistent.
  - destruct (thumbnails_stored _ _ Hin) as (posters & Hset & Hmem).
    apply (selection_consistent_member _ posters poster); destruct s; auto.
  - unfold downloadSettle. destruct (failure o);
      now apply (selection_consistent_frame s).
Qed.

(** C8.  In every reachable state a non-null [selectedPoster] is an element
    of a non-null [generatedPosters], and every transition out of such a
    state leads to a state where this holds again. *)
Theorem selection_points_into_candidates s :
  reachable s ->
  selection_consistent s
  /\ forall s', step s s' -> selection_consistent s'.
Proof.
  intros Hreach.
  assert (H : selection_consistent s).
  { induction Hreach as [|s s' _ IH Hstep].
    - now apply selection_consistent_cleared.
    - now apply (step_consistent s). }
  split; [exact H|].
  intros s' Hstep. now apply (step_consistent s).
Qed.

Lemma reachable_ready : reachable Sample.ready.
Proof.
  pose (sv := Sample.returning (Some ["poster-a"; "poster-b"]) (Some "icon")).
  apply (reachable_step (generateBegin Sample.filled));
    [|exact (step_generateResume sv Sample.photo "palm" _)].
  apply (reachable_step Sample.filled); [|now apply step_generateBegin].
  apply (reachable_step _ _ (reachable_step _ _ (reachable_step _ _
           (reachable_step _ _ reachable_initial
              (step_imageChange (fun _ => "blob:1") (Some Sample.photo) _))
           (step_setName "Test Name" _))
           (step_setSymbol "palm" _))
           (step_setDistrict "Example" _)).
Qed.

Lemma selection_points_into_candidates_sample :
  selection_consistent Sample.ready.
Proof.
  exact (proj1 (selection_points_into_candidates Sample.ready reachable_ready)).
Defined.

End Invariant.

(** ** Uploading and resetting *)

Section Frames.

(** C9.  Uploading a file clears the candidate set, the selection, the icon
    and the error, and keeps the name, district and symbol texts and the
    font; a null file changes nothing. *)
Theorem handleImageChange_frame (mk : File -> string) (s : State) :
  (forall file : File,
     let s' := handleImageChange mk (Some file) s in
     generatedPosters s' = None
     /\ selectedPoster s' = None
     /\ symbolImageUrl s' = None
     /\ error s' = None
     /\ name s' = name s
     /\ district s' = district s
     /\ symbol s' = symbol s
     /\ selectedFont s' = selectedFont s)
  /\ handleImageChange mk None s = s.
Proof.
  split; [|reflexivity].
  intros file. cbn. repeat split.
Qed.

(** C10.  Reset empties the photo, preview, name, district, symbol,
    candidate set, selection, icon and error and turns loading off; the
    downloading flag keeps its value, so it is still set after a reset that
    follows the start of a download. *)
Theorem handleReset_frame (s : State) :
  let s' := handleReset s in
  imageFile s' = None
  /\ previewUrl s' = None
  /\ name s' = ""
  /\ district s' = ""
  /\ symbol s' = ""
  /\ generatedPosters s' = None
  /\ selectedPoster s' = None
  /\ symbolImageUrl s' = None
  /\ error s' = None
  /\ isLoading s' = false
  /\ isDownloading s' = isDownloading s
  /\ isDownloading (handleReset (downloadBegin s)) = true.
Proof.
  cbn. repeat split.
Qed.

End Frames.

(** ** Download *)

Section Download.
Import Saving.

Lemma handleDownload_guarded br s posterSrc symbolSrc :
  canDownload s posterSrc symbolSrc ->
  handleDownload br s =
    (downloadSettle (downloadEvents br s posterSrc symbolSrc) (downloadBegin s),
     downloadEvents br s posterSrc symbolSrc).
Proof.
  intros (Hposter & Hicon & Htp & Hti).
  unfold handleDownload. now rewrite Hposter, Hicon, Htp, Hti.
Qed.

Lemma isDownloading_settled o s : isDownloading (downloadSettle o s) = false.
Proof. unfold downloadSettle. destruct (failure o); reflexivity. Qed.

Lemma canDownload_ready : canDownload Sample.ready "poster-a" "icon".
Proof. repeat split. Qed.

(** C5.  Once past the guard, the downloading flag is cleared however the
    image events turn out: poster not decoded, icon not decoded, no 2D
    context, or file saved.  Each failure reports its own message, and
    without a context nothing is drawn and nothing is saved. *)
Theorem download_always_clears_flag br s posterSrc symbolSrc :
  canDownload s posterSrc symbolSrc ->
  let s' := fst (handleDownload br s) in
  let o := snd (handleDownload br s) in
  isDownloading s' = false
  /\ match decode br posterSrc, decode br symbolSrc, context2d br with
     | LoadError, _, _ =>
         error s' = Some msgPosterLoad /\ drawn o = [] /\ saved o = None
     | Loaded _ _, LoadError, _ =>
         error s' = Some msgSymbolLoad /\ drawn o = [] /\ saved o = None
     | Loaded _ _, Loaded _ _, false =>
         error s' = Some msgNoContext /\ drawn o = [] /\ saved o = None
     | Loaded _ _, Loaded _ _, true =>
         error s' = None
         /\ exists f, saved o = Some f /\ download f = "my-election-poster.png"
                      /\ pixels f = drawn o
     end
  /\ msgNoContext <> msgPosterLoad
  /\ msgNoContext <> msgSymbolLoad.
Proof.
  intros Hcan s' o. subst s' o.
  rewrite (handleDownload_guarded br s _ _ Hcan). cbn [fst snd].
  split; [apply isDownloading_settled|].
  split; [|split; discriminate].
  unfold downloadEvents.
  destruct (decode br posterSrc) as [pw ph|]; [|repeat split].
  destruct (decode br symbolSrc) as [sw sh|]; [|repeat split].
  destruct (context2d br); [|repeat split].
  split; [reflexivity|].
  eexists. repeat split.
Qed.

Lemma download_always_clears_flag_sample :
  isDownloading (fst (handleDownload (Sample.browser 1000 1000 false) Sample.ready))
  = false.
Proof.
  exact (proj1 (download_always_clears_flag (Sample.browser 1000 1000 false)
                  Sample.ready "poster-a" "icon" canDownload_ready)).
Defined.

Lemma succeeds_events br s posterImage symbolImage :
  succeeds br s posterImage symbolImage ->
  snd (handleDownload br s) =
    let canvas := sizedCanvas posterImage in
    let ops := compose s posterImage symbolImage canvas in
    {| failure := None; drawn := ops;
       saved := Some {| download := "my-election-poster.png";
                        href := Dom.toDataURL (serialises br) canvas "image/png";
                        surface := canvas; pixels := ops |} |}.
Proof.
  intros (Hcan & Hposter & Hicon & Hctx).
  rewrite (handleDownload_guarded br s _ _ Hcan). cbn [snd].
  unfold downloadEvents. rewrite Hposter, Hicon, Hctx.
  destruct posterImage, symbolImage. reflexivity.
Qed.

Lemma succeeds_sample W H :
  succeeds (Sample.browser W H true) Sample.ready
    {| Dom.src := "poster-a"; Dom.naturalWidth := W; Dom.naturalHeight := H |}
    {| Dom.src := "icon"; Dom.naturalWidth := 64; Dom.naturalHeight := 64 |}.
Proof. repeat split. Qed.

(** C4.  In a successful download the surface sees, in this order: the
    poster drawn over the whole canvas, the shadow switched on, the name
    drawn, the caption drawn, the shadow switched off, the icon drawn.  The
    two texts are drawn under one and the same shadow setting; the poster
    and the icon are drawn with no shadow in effect. *)
Theorem download_draw_order br s posterImage symbolImage :
  succeeds br s posterImage symbolImage ->
  let ops := drawn (snd (handleDownload br s)) in
  let canvas := sizedCanvas posterImage in
  Dom.timeline ops
  = [ Dom.DrewImage posterImage;
      Dom.ShadowOn;
      Dom.DrewText (name s);
      Dom.DrewText (districtPrefix ++ district s);
      Dom.ShadowOff;
      Dom.DrewImage symbolImage ]
  /\ nth_error ops 0
     = Some (Dom.DrawImage posterImage 0 0
               (Dom.number_of_Z (Dom.width canvas))
               (Dom.number_of_Z (Dom.height canvas)))
  /\ map (fun p => Dom.shadow_active (Dom.paint p)) (Dom.painted ops)
     = [false; true; true; false]
  /\ map shadowOf (Dom.painted ops)
     = [ ("rgba(0, 0, 0, 0)", 0, 0, 0)%float;
         ("rgba(0, 0, 0, 0.4)", 10, 2, 2)%float;
         ("rgba(0, 0, 0, 0.4)", 10, 2, 2)%float;
         ("transparent", 10, 2, 2)%float ].
Proof.
  intros Hrun ops canvas. subst ops canvas.
  rewrite (succeeds_events _ _ _ _ Hrun).
  repeat split.
Qed.

Lemma download_draw_order_sample :
  Dom.timeline
    (drawn (snd (handleDownload (Sample.browser 1000 1000 true) Sample.ready)))
  = [ Dom.DrewImage {| Dom.src := "poster-a"; Dom.naturalWidth := 1000;
                       Dom.naturalHeight := 1000 |};
      Dom.ShadowOn;
      Dom.DrewText "Test Name";
      Dom.DrewText (districtPrefix ++ "Example");
      Dom.ShadowOff;
      Dom.DrewImage {| Dom.src := "icon"; Dom.naturalWidth := 64;
                       Dom.naturalHeight := 64 |} ].
Proof.
  exact (proj1 (download_draw_order _ _ _ _ (succeeds_sample 1000 1000))).
Defined.

(** C3, as the code has it.  The canvas is 1500 wide and its height is
    [H * (1500 / W)] as the canvas stores it, a whole number of pixels
    (the fraction is dropped); every other size and position follows the
    formulas of section 4.2 from these two: name font [canvasWidth / 14] on
    the baseline [canvasHeight * 0.82], caption font [canvasWidth / 35] on
    the baseline [nameBaselineY + nameFontSize / 2], both centred on
    [canvasWidth / 2], icon of size [canvasWidth / 9] at
    [(canvasWidth / 2 - size / 2, captionBaselineY + captionFontSize)].
    Whenever [H * (1500 / W)] is stored unchanged, the geometry is exactly
    that of the specification's calculator.  The geometry depends on
    nothing but [W] and [H]. *)
Theorem download_layout br s posterImage symbolImage :
  succeeds br s posterImage symbolImage ->
  let W := Dom.number_of_Z (Dom.naturalWidth posterImage) in
  let H := Dom.number_of_Z (Dom.naturalHeight posterImage) in
  let storedHeight :=
    Dom.number_of_Z (Dom.reflect_unsigned_long 150 (H * (1500 / W))) in
  Observed.downloadGeometry br s = Some (Spec.layoutOn 1500 storedHeight)
  /\ (storedHeight = (H * (1500 / W))%float ->
      Observed.downloadGeometry br s = Some (Spec.LayoutCalculator W H))
  /\ map (fun p => Dom.textAlign (Dom.paint p))
         (Dom.painted (drawn (snd (handleDownload br s))))
     = ["start"; "center"; "center"; "center"]
  /\ (forall br' s' posterImage' symbolImage',
        succeeds br' s' posterImage' symbolImage' ->
        Dom.naturalWidth posterImage' = Dom.naturalWidth posterImage ->
        Dom.naturalHeight posterImage' = Dom.naturalHeight posterImage ->
        Observed.downloadGeometry br' s' = Observed.downloadGeometry br s).
Proof.
  intros Hrun W H storedHeight.
  assert (Hgeometry : forall br0 s0 poster0 symbol0,
            succeeds br0 s0 poster0 symbol0 ->
            Observed.downloadGeometry br0 s0
            = Some (Spec.layoutOn 1500
                      (Dom.number_of_Z
                         (Dom.reflect_unsigned_long 150
                            (Dom.number_of_Z (Dom.naturalHeight poster0)
                             * (1500 / Dom.number_of_Z (Dom.naturalWidth poster0))))))).
  { intros br0 s0 poster0 symbol0 Hrun0. unfold Observed.downloadGeometry.
    rewrite (succeeds_events _ _ _ _ Hrun0). reflexivity. }
  split; [exact (Hgeometry _ _ _ _ Hrun)|].
  split.
  - intros Hwhole. rewrite (Hgeometry _ _ _ _ Hrun).
    unfold Spec.LayoutCalculator. cbv zeta.
    fold W H storedHeight. now rewrite Hwhole.
  - split.
    + rewrite (succeeds_events _ _ _ _ Hrun). reflexivity.
    + intros br' s' posterImage' symbolImage' Hrun' HW HH.
      rewrite (Hgeometry _ _ _ _ Hrun'), (Hgeometry _ _ _ _ Hrun), HW, HH.
      reflexivity.
Qed.

Lemma download_layout_sample :
  Observed.downloadGeometry (Sample.browser 1024 1365 true) Sample.ready
  = Some (Spec.layoutOn 1500 1999).
Proof.
  exact (proj1 (download_layout _ _ _ _ (succeeds_sample 1024 1365))).
Defined.

(** C3 as stated fails: a 1000 by 1001 poster gives a canvas 1501 high, not
    the 1501.5 of [H * (1500 / W)], and the name baseline moves with it. *)
Lemma canvas_height_is_whole :
  Observed.downloadGeometry (Sample.browser 1000 1001 true) Sample.ready
  <> Some (Spec.LayoutCalculator (Dom.number_of_Z 1000) (Dom.number_of_Z 1001)).
Proof.
  intros Heq.
  apply (f_equal (fun g => match g with
                           | Some g => PrimFloat.eqb (Spec.canvasHeight g) 1501
                           | None => false
                           end)) in Heq.
  vm_compute in Heq. discriminate Heq.
Qed.

(** C2, as the code has it.  For a 1000 by 1000 poster with the name
    "Test Name" and the district "Example" the saved canvas is 1500 by
    1500, the name is drawn at (750, 1230), the caption baseline is
    1230 + 1500/14/2 (about 1283.6), and the icon's corner is at
    x = 1500/2 - 1500/9/2 (about 666.7), y = caption baseline + 1500/35
    (about 1326.4). *)
Theorem scenario_1000_by_1000 :
  let br := Sample.browser 1000 1000 true in
  let o := snd (handleDownload br Sample.ready) in
  name Sample.ready = "Test Name"
  /\ district Sample.ready = "Example"
  /\ (exists f, saved o = Some f
                /\ surface f = {| Dom.width := 1500; Dom.height := 1500 |})
  /\ In (Dom.FillText "Test Name" 750 1230) (drawn o)
  /\ exists g, Observed.downloadGeometry br Sample.ready = Some g
               /\ scenarioAsComputed g
               /\ Spec.captionBaselineY g = (1230 + 1500 / 14 / 2)%float
               /\ Spec.iconX g = (1500 / 2 - 1500 / 9 / 2)%float
               /\ Spec.iconY g = (Spec.captionBaselineY g + 1500 / 35)%float.
Proof.
  cbv zeta. split; [reflexivity|]. split; [reflexivity|].
  split; [eexists; split; reflexivity|].
  split; [vm_compute; tauto|].
  eexists. split; [vm_compute; reflexivity|].
  repeat split; vm_compute; reflexivity.
Qed.

(** C2 as stated fails: the icon's left edge is at 666.67, not near 583. *)
Lemma scenario_icon_not_at_583 :
  ~ exists g,
      Observed.downloadGeometry (Sample.browser 1000 1000 true) Sample.ready = Some g
      /\ scenarioAsSpecified g.
Proof.
  intros (g & Hg & _ & _ & _ & _ & Hx & _).
  vm_compute in Hg. injection Hg as <-.
  vm_compute in Hx. discriminate Hx.
Qed.

(** Rounding alone can cost a row: for a 91 by 91 poster [91 * (1500 / 91)]
    is the double just below 1500, and the canvas is 1499 high. *)
Example square_poster_loses_a_row :
  Observed.downloadGeometry (Sample.browser 91 91 true) Sample.ready
  = Some (Spec.layoutOn 1500 1499).
Proof. vm_compute. reflexivity. Qed.

(** Without a poster or an icon the handler returns at once and leaves the
    state, the downloading flag included, as it was. *)
Lemma handleDownload_refused br s :
  truthy_opt (selectedPoster s) && truthy_opt (symbolImageUrl s) = false ->
  handleDownload br s = (s, idle).
Proof.
  unfold handleDownload.
  destruct (selectedPoster s) as [posterSrc|], (symbolImageUrl s) as [symbolSrc|];
    cbn; try reflexivity.
  now intros ->.
Qed.

End Download.

(** ** More on generation *)

Section GenerationEdges.
Import Request Controls.

Lemma formIncomplete_missing s :
  formIncomplete s = true <->
  imageFile s = None \/ name s = "" \/ symbol s = "" \/ district s = "".
Proof.
  unfold formIncomplete, truthy.
  destruct (imageFile s) as [file|]; cbn;
    destruct (String.eqb_spec (name s) ""), (String.eqb_spec (symbol s) ""),
      (String.eqb_spec (district s) ""); cbn;
    intuition (try discriminate; try congruence).
Qed.

Lemma formComplete_file s :
  formIncomplete s = false -> exists file, imageFile s = Some file.
Proof.
  unfold formIncomplete. destruct (imageFile s) as [file|]; [now exists file|].
  discriminate.
Qed.

(** The handler is the click followed by the resumption of its closure. *)
Lemma handleGenerateClick_click sv s :
  handleGenerateClick sv s =
    match generateClick s with
    | (s1, Some (file, symbolText)) => generateResume sv file symbolText s1
    | (s1, None) => s1
    end.
Proof.
  unfold handleGenerateClick, generateClick.
  destruct (formIncomplete s); [reflexivity|].
  destruct (imageFile s); reflexivity.
Qed.

(** X1.  When the photo, the name, the symbol or the district is missing,
    the click only sets the "fill all fields" message: no request is made
    (the result is the same whatever the services are), loading does not
    start, and the stored candidates, selection and icon stay as they
    were. *)
Theorem incomplete_form_is_refused sv s :
  imageFile s = None \/ name s = "" \/ symbol s = "" \/ district s = "" ->
  let s' := handleGenerateClick sv s in
  s' = setError (Some msgMissingFields) s
  /\ snd (generateClick s) = None
  /\ isLoading s' = isLoading s
  /\ generatedPosters s' = generatedPosters s
  /\ selectedPoster s' = selectedPoster s
  /\ symbolImageUrl s' = symbolImageUrl s
  /\ forall sv', handleGenerateClick sv' s = s'.
Proof.
  intros Hmissing. apply formIncomplete_missing in Hmissing.
  unfold handleGenerateClick, generateClick. rewrite Hmissing.
  cbn. repeat split.
Qed.

Lemma incomplete_form_is_refused_sample :
  handleGenerateClick (Sample.returning (Some ["poster-a"]) (Some "icon"))
                      (setName "" Sample.ready)
  = setError (Some msgMissingFields) (setName "" Sample.ready).
Proof.
  exact (proj1 (incomplete_form_is_refused _ (setName "" Sample.ready)
                  (or_intror (or_introl eq_refl)))).
Defined.



(** X3.  A request that passes the form check starts from a clean slate:
    two states with the same photo, preview, texts, font and downloading
    flag end in the same state, whatever candidates, selection, icon, error
    or loading flag they held before. *)
Theorem generation_forgets_the_previous_cycle sv s1 s2 :
  formIncomplete s1 = false ->
  imageFile s1 = imageFile s2 ->
  previewUrl s1 = previewUrl s2 ->
  name s1 = name s2 ->
  symbol s1 = symbol s2 ->
  district s1 = district s2 ->
  selectedFont s1 = selectedFont s2 ->
  isDownloading s1 = isDownloading s2 ->
  handleGenerateClick sv s1 = handleGenerateClick sv s2.
Proof.
  destruct s1, s2. cbn. intros Hform. intros; subst.
  unfold handleGenerateClick. unfold formIncomplete in *. cbn in *.
  rewrite Hform.
  match goal with
  | |- match ?f with _ => _ end = _ =>
      destruct f; [reflexivity|discriminate Hform]
  end.
Qed.

Lemma generation_forgets_the_previous_cycle_sample :
  handleGenerateClick (Sample.returning None (Some "icon")) Sample.filled
  = handleGenerateClick (Sample.returning None (Some "icon")) Sample.ready.
Proof.
  exact (generation_forgets_the_previous_cycle _ Sample.filled Sample.ready
           eq_refl eq_refl eq_refl eq_refl eq_refl eq_refl eq_refl eq_refl).
Defined.

(** X4.  When the photo cannot be encoded, the request fails with the
    rejection's message (or the generic message for a thrown value that is
    not an [Error]), nothing is stored, and the outcome does not depend on
    the two remote calls. *)
Theorem unreadable_photo_fails sv s file e :
  formIncomplete s = false ->
  imageFile s = Some file ->
  fileToBase64 sv file = Rejected e ->
  let s' := handleGenerateClick sv s in
  error s' = Some (errorMessage e)
  /\ (e = NonError -> error s' = Some "An unexpected error occurred.")
  /\ nothingKept s'
  /\ isLoading s' = false
  /\ forall posterCall iconCall first,
       handleGenerateClick
         {| fileToBase64 := fileToBase64 sv; getMimeType := getMimeType sv;
            generatePoster := posterCall; generateSymbolImage := iconCall;
            posterRejectsFirst := first |} s = s'.
Proof.
  intros Hform Hfile Hencode.
  unfold handleGenerateClick, generateResume, generateTry.
  rewrite Hform, Hfile. cbn [fileToBase64]. rewrite Hencode.
  repeat split. intros ->. reflexivity.
Qed.

Lemma unreadable_photo_fails_sample :
  error (handleGenerateClick
           {| fileToBase64 := fun _ => Rejected NonError;
              getMimeType := fun _ => None;
              generatePoster := fun _ => Fulfilled (Some ["poster-a"]);
              generateSymbolImage := fun _ => Fulfilled (Some "icon");
              posterRejectsFirst := true |} Sample.filled)
  = Some "An unexpected error occurred.".
Proof.
  exact (proj1 (unreadable_photo_fails
                  {| fileToBase64 := fun _ => Rejected NonError;
                     getMimeType := fun _ => None;
                     generatePoster := fun _ => Fulfilled (Some ["poster-a"]);
                     generateSymbolImage := fun _ => Fulfilled (Some "icon");
                     posterRejectsFirst := true |}
                  Sample.filled Sample.photo NonError eq_refl eq_refl eq_refl)).
Defined.

(** X5.  When one of the two remote calls rejects, the request fails with
    that rejection's message and nothing is stored, even if the other call
    returned candidates or an icon.  (An icon call that returns nothing,
    instead of rejecting, leaves the candidates stored.) *)
Theorem rejected_call_discards_the_other sv s poster icon :
  settles sv s poster icon ->
  (exists e, poster = Rejected e) \/ (exists e, icon = Rejected e) ->
  let s' := handleGenerateClick sv s in
  (exists e, (poster = Rejected e \/ icon = Rejected e)
             /\ error s' = Some (errorMessage e))
  /\ nothingKept s'
  /\ isLoading s' = false.
Proof.
  intros Hsettles Hrejected s'. subst s'.
  rewrite (handleGenerateClick_settled _ _ _ _ Hsettles).
  destruct poster as [posterResults|e1], icon as [symbolImageResult|e2];
    cbn [Promise_all].
  - destruct Hrejected as [(e & He)|(e & He)]; discriminate He.
  - split; [exists e2; split; [now right|reflexivity]|repeat split].
  - split; [exists e1; split; [now left|reflexivity]|repeat split].
  - destruct (posterRejectsFirst sv).
    + split; [exists e1; split; [now left|reflexivity]|repeat split].
    + split; [exists e2; split; [now right|reflexivity]|repeat split].
Qed.

Lemma rejected_call_discards_the_other_sample :
  nothingKept
    (handleGenerateClick
       {| fileToBase64 := fun _ => Fulfilled "AAAA";
          getMimeType := fun _ => None;
          generatePoster := fun _ => Fulfilled (Some ["poster-a"]);
          generateSymbolImage := fun _ => Rejected (ErrorObject "quota");
          posterRejectsFirst := true |} Sample.filled).
Proof.
  refine (proj1 (proj2 (rejected_call_discards_the_other
                          {| fileToBase64 := fun _ => Fulfilled "AAAA";
                             getMimeType := fun _ => None;
                             generatePoster := fun _ => Fulfilled (Some ["poster-a"]);
                             generateSymbolImage :=
                               fun _ => Rejected (ErrorObject "quota");
                             posterRejectsFirst := true |}
                          Sample.filled
                          (Fulfilled (Some ["poster-a"]))
                          (Rejected (ErrorObject "quota")) _ _))).
  - exists Sample.photo, "AAAA". repeat split.
  - right. now exists (ErrorObject "quota").
Defined.

(** X6.  Where the generate button is enabled the form check passes: the
    click starts loading, clears the previous result and error, and leaves
    exactly one closure waiting, holding the current photo and symbol
    text; the "fill all fields" branch cannot be reached through the
    button. *)
Theorem enabled_button_starts_a_request s :
  generateDisabled s = false ->
  exists file,
    imageFile s = Some file
    /\ generateClick s = (generateBegin s, Some (file, symbol s))
    /\ isLoading (generateBegin s) = true
    /\ error (generateBegin s) = None
    /\ nothingKept (generateBegin s)
    /\ generateDisabled (generateBegin s) = true
    /\ forall sv, handleGenerateClick sv s
                  = generateResume sv file (symbol s) (generateBegin s).
Proof.
  unfold generateDisabled, isFormComplete. intros Henabled.
  assert (Hform : formIncomplete s = false).
  { unfold formIncomplete.
    destruct (non_null (imageFile s)), (truthy (name s)), (truthy (symbol s)),
      (truthy (district s)); cbn in Henabled |- *; congruence. }
  destruct (formComplete_file s Hform) as (file & Hfile).
  exists file. unfold generateClick, handleGenerateClick.
  rewrite Hform, Hfile. repeat split.
  unfold generateDisabled. cbn. apply orb_true_r.
Qed.

Lemma enabled_button_starts_a_request_sample :
  exists file, imageFile Sample.filled = Some file
               /\ generateClick Sample.filled
                  = (generateBegin Sample.filled, Some (file, symbol Sample.filled)).
Proof.
  destruct (enabled_button_starts_a_request Sample.filled eq_refl)
    as (file & Hfile & Hclick & _).
  exists file. split; assumption.
Defined.

(** X7.  Uploading another photo while a request is in flight does not
    cancel it: when the calls return, the candidates and the icon made from
    the earlier photo are stored and selected next to the new photo and
    its preview. *)
Theorem upload_does_not_cancel_generation sv mk s file newFile first rest icon :
  settles sv s (Fulfilled (Some (first :: rest))) (Fulfilled (Some icon)) ->
  imageFile s = Some file ->
  truthy icon = true ->
  let uploaded := handleImageChange mk (Some newFile) (generateBegin s) in
  let s' := generateResume sv file (symbol s) uploaded in
  imageFile s' = Some newFile
  /\ previewUrl s' = Some (mk newFile)
  /\ generatedPosters s' = Some (first :: rest)
  /\ selectedPoster s' = Some first
  /\ symbolImageUrl s' = Some icon
  /\ error s' = None
  /\ isLoading s' = false
  /\ resultRendered s' = truthy first.
Proof.
  intros (file' & base64Data & Hform & Hfile' & Hb64 & Hposter & Hicon) Hfile Htruthy.
  rewrite Hfile in Hfile'. injection Hfile' as <-.
  unfold generateResume, generateTry.
  rewrite Hb64, Hposter, Hicon. cbn [Promise_all truthy_opt]. rewrite Htruthy.
  unfold resultRendered. cbn. repeat split.
Qed.

Lemma upload_does_not_cancel_generation_sample :
  let sv := Sample.returning (Some ["poster-a"; "poster-b"]) (Some "icon") in
  let uploaded :=
    handleImageChange (fun _ => "blob:2") (Some {| fileName := "other.png" |})
                      (generateBegin Sample.filled) in
  imageFile (generateResume sv Sample.photo "palm" uploaded)
  = Some {| fileName := "other.png" |}
  /\ previewUrl (generateResume sv Sample.photo "palm" uploaded) = Some "blob:2"
  /\ generatedPosters (generateResume sv Sample.photo "palm" uploaded)
     = Some ["poster-a"; "poster-b"].
Proof.
  pose proof (upload_does_not_cancel_generation
                (Sample.returning (Some ["poster-a"; "poster-b"]) (Some "icon"))
                (fun _ => "blob:2") Sample.filled Sample.photo
                {| fileName := "other.png" |} "poster-a" ["poster-b"] "icon"
                (settles_sample _ _) eq_refl eq_refl) as (H1 & H2 & H3 & _).
  exact (conj H1 (conj H2 H3)).
Defined.

End GenerationEdges.

(** ** More on the download *)

Section DownloadEdges.
Import Saving Controls.

(** The handler is the click followed by the image events of its closure. *)
Lemma handleDownload_click br s :
  handleDownload br s =
    match downloadClick s with
    | (s1, Some (closed, posterSrc, symbolSrc)) =>
        let o := downloadEvents br closed posterSrc symbolSrc in
        (downloadSettle o s1, o)
    | (s1, None) => (s1, idle)
    end.
Proof.
  unfold handleDownload, downloadClick.
  destruct (selectedPoster s) as [posterSrc|], (symbolImageUrl s) as [symbolSrc|];
    try reflexivity.
  destruct (truthy posterSrc && truthy symbolSrc); reflexivity.
Qed.

Lemma failure_is_reported br s posterSrc symbolSrc message :
  failure (downloadEvents br s posterSrc symbolSrc) = Some message ->
  (message = msgPosterLoad \/ message = msgSymbolLoad \/ message = msgNoContext)
  /\ drawn (downloadEvents br s posterSrc symbolSrc) = []
  /\ saved (downloadEvents br s posterSrc symbolSrc) = None.
Proof.
  unfold downloadEvents.
  destruct (decode br posterSrc) as [pw ph|];
    [|cbn; intros [= <-]; auto].
  destruct (decode br symbolSrc) as [sw sh|];
    [|cbn; intros [= <-]; auto].
  destruct (context2d br); cbn [failure drawn saved];
    [discriminate|intros [= <-]; auto].
Qed.

(** X8.  A download never touches the photo, the texts, the font, the
    candidates, the selection, the icon or the loading flag: only the
    downloading flag and the error can change.  With no poster selected or
    no icon stored (or an empty one) it changes nothing at all, draws
    nothing and saves nothing. *)
Theorem download_leaves_the_rest_alone br s :
  let s' := fst (handleDownload br s) in
  imageFile s' = imageFile s
  /\ previewUrl s' = previewUrl s
  /\ name s' = name s
  /\ symbol s' = symbol s
  /\ district s' = district s
  /\ selectedFont s' = selectedFont s
  /\ generatedPosters s' = generatedPosters s
  /\ selectedPoster s' = selectedPoster s
  /\ symbolImageUrl s' = symbolImageUrl s
  /\ isLoading s' = isLoading s
  /\ (truthy_opt (selectedPoster s) && truthy_opt (symbolImageUrl s) = false ->
      s' = s
      /\ drawn (snd (handleDownload br s)) = []
      /\ saved (snd (handleDownload br s)) = None).
Proof.
  unfold handleDownload.
  destruct (selectedPoster s) as [posterSrc|] eqn:Hposter,
           (symbolImageUrl s) as [symbolSrc|] eqn:Hicon;
    cbn [truthy_opt]; try (cbn; now repeat split).
  destruct (truthy posterSrc && truthy symbolSrc); [|cbn; now repeat split].
  cbn [fst snd]. unfold downloadSettle, downloadBegin.
  destruct (failure _); cbn; repeat split; try assumption; discriminate.
Qed.

(** X9.  A download that fails replaces the result panel by the error
    panel: the candidates, the selection and the icon are still stored,
    but no thumbnail and no download button is rendered any more, nothing
    was drawn and no file was saved. *)
Theorem failed_download_hides_the_results br s posterSrc symbolSrc message :
  canDownload s posterSrc symbolSrc ->
  isLoading s = false ->
  failure (snd (handleDownload br s)) = Some message ->
  let s' := fst (handleDownload br s) in
  error s' = Some message
  /\ outputSection s' = [ErrorPanel message]
  /\ thumbnails s' = []
  /\ resultRendered s' = false
  /\ generatedPosters s' = generatedPosters s
  /\ selectedPoster s' = Some posterSrc
  /\ symbolImageUrl s' = Some symbolSrc
  /\ drawn (snd (handleDownload br s)) = []
  /\ saved (snd (handleDownload br s)) = None.
Proof.
  intros Hcan Hidle.
  rewrite (handleDownload_guarded br s _ _ Hcan). cbn [fst snd].
  intros Hfailure.
  destruct (failure_is_reported _ _ _ _ _ Hfailure) as (Hmessage & Hdrawn & Hsaved).
  destruct Hcan as (Hposter & Hicon & _ & _).
  unfold downloadSettle. rewrite Hfailure.
  assert (Htruthy : truthy message = true)
    by (destruct Hmessage as [->|[->| ->]]; reflexivity).
  unfold thumbnails, resultRendered, outputSection.
  destruct s; cbn in *; subst. rewrite Htruthy.
  destruct generatedPosters0; cbn; repeat split; assumption.
Qed.

Lemma failed_download_hides_the_results_sample :
  outputSection
    (fst (handleDownload {| decode := fun _ => LoadError; context2d := true;
                            serialises := fun _ => true |}
                         Sample.ready))
  = [ErrorPanel msgPosterLoad].
Proof.
  exact (proj1 (proj2 (failed_download_hides_the_results
                         {| decode := fun _ => LoadError; context2d := true;
                            serialises := fun _ => true |}
                         Sample.ready "poster-a" "icon" msgPosterLoad
                         canDownload_ready eq_refl eq_refl))).
Defined.

Lemma succeeds_geometry br s posterImage symbolImage :
  succeeds br s posterImage symbolImage ->
  Observed.downloadGeometry br s
  = Some (Spec.layoutOn 1500
            (Dom.number_of_Z (Dom.height (sizedCanvas posterImage)))).
Proof.
  intros Hrun. unfold Observed.downloadGeometry.
  rewrite (succeeds_events _ _ _ _ Hrun). reflexivity.
Qed.

(** X10.  Nothing horizontal scales with the images: whatever the poster
    and the icon measure, the canvas is 1500 wide, the name is set at
    107.14 px and the caption at 42.86 px, both centred on x = 750, and the
    icon is stretched into a square of 166.67 px at x = 666.67, its own
    proportions ignored. *)
Theorem sizes_ignore_the_images br s posterImage symbolImage :
  succeeds br s posterImage symbolImage ->
  exists g y,
    Observed.downloadGeometry br s = Some g
    /\ Spec.canvasWidth g = 1500%float
    /\ Spec.nameFontSizePx g = 107.14285714285714%float
    /\ Spec.captionFontSizePx g = 42.857142857142854%float
    /\ Spec.nameX g = 750%float
    /\ Spec.captionX g = 750%float
    /\ Spec.iconSizePx g = 166.66666666666666%float
    /\ Spec.iconX g = 666.66666666666663%float
    /\ last (drawn (snd (handleDownload br s))) (Dom.SetDirection "")
       = Dom.DrawImage symbolImage 666.66666666666663 y
           166.66666666666666 166.66666666666666.
Proof.
  intros Hrun. eexists. eexists.
  split; [exact (succeeds_geometry _ _ _ _ Hrun)|].
  rewrite (succeeds_events _ _ _ _ Hrun).
  repeat split.
Qed.

Lemma sizes_ignore_the_images_sample :
  exists g y,
    Observed.downloadGeometry (Sample.browser 300 700 true) Sample.ready = Some g
    /\ Spec.canvasWidth g = 1500%float
    /\ Spec.nameFontSizePx g = 107.14285714285714%float
    /\ Spec.captionFontSizePx g = 42.857142857142854%float
    /\ Spec.nameX g = 750%float
    /\ Spec.captionX g = 750%float
    /\ Spec.iconSizePx g = 166.66666666666666%float
    /\ Spec.iconX g = 666.66666666666663%float
    /\ last (drawn (snd (handleDownload (Sample.browser 300 700 true) Sample.ready)))
            (Dom.SetDirection "")
       = Dom.DrawImage {| Dom.src := "icon"; Dom.naturalWidth := 64;
                          Dom.naturalHeight := 64 |}
           666.66666666666663 y 166.66666666666666 166.66666666666666.
Proof.
  exact (sizes_ignore_the_images _ _ _ _ (succeeds_sample 300 700)).
Defined.

Lemma cutOffOn_sound from count expected h :
  Fit.cutOffOn from count expected = true ->
  (from <= h < from + Z.of_nat count)%Z ->
  Fit.cutOff h = expected.
Proof.
  unfold Fit.cutOffOn. rewrite forallb_forall. intros Hall Hrange.
  specialize (Hall (Z.to_nat (h - from))).
  rewrite Z2Nat.id in Hall by lia.
  replace (from + (h - from))%Z with h in Hall by lia.
  apply eqb_prop, Hall, in_seq. lia.
Qed.

(** X11.  On a canvas up to 1461 px high (a 4:3 or 16:9 landscape poster,
    for one) the icon reaches below the bottom edge of the canvas and is
    cut off; from 1462 px up to 8000 px it lies inside. *)
Theorem icon_is_cut_off_on_low_canvases br s posterImage symbolImage :
  succeeds br s posterImage symbolImage ->
  let h := Dom.height (sizedCanvas posterImage) in
  exists g,
    Observed.downloadGeometry br s = Some g
    /\ Spec.canvasHeight g = Dom.number_of_Z h
    /\ ((0 <= h <= 1461)%Z ->
        PrimFloat.ltb (Spec.canvasHeight g) (Fit.iconBottom g) = true)
    /\ ((1462 <= h <= 8000)%Z ->
        PrimFloat.ltb (Spec.canvasHeight g) (Fit.iconBottom g) = false).
Proof.
  intros Hrun h. eexists.
  split; [exact (succeeds_geometry _ _ _ _ Hrun)|].
  split; [reflexivity|]. fold h.
  split; intros Hrange.
  - apply (cutOffOn_sound 0 (Z.to_nat 1462) true h);
      [vm_compute; reflexivity|lia].
  - apply (cutOffOn_sound 1462 (Z.to_nat 6539) false h);
      [vm_compute; reflexivity|lia].
Qed.

Lemma icon_is_cut_off_on_low_canvases_sample :
  exists g,
    Observed.downloadGeometry (Sample.browser 1024 768 true) Sample.ready = Some g
    /\ Spec.canvasHeight g = 1125%float
    /\ PrimFloat.ltb (Spec.canvasHeight g) (Fit.iconBottom g) = true.
Proof.
  destruct (icon_is_cut_off_on_low_canvases _ _ _ _ (succeeds_sample 1024 768))
    as (g & Hg & Hheight & Hlow & _).
  exists g. split; [exact Hg|]. split; [exact Hheight|].
  apply Hlow. vm_compute. split; discriminate.
Defined.

(** X12.  Both texts are filled in white, centred, right to left, in the
    font the user picked, the name at weight 900 and the caption at weight
    700; the caption takes its alignment and direction from what was set
    for the name.  The poster is drawn before any of this is set. *)
Theorem texts_are_white_centred_rtl br s posterImage symbolImage :
  succeeds br s posterImage symbolImage ->
  map (fun p => (Dom.call p,
                 Dom.fillStyle (Dom.paint p), Dom.textAlign (Dom.paint p),
                 Dom.direction (Dom.paint p),
                 Dom.family (Dom.font (Dom.paint p)),
                 Dom.weight (Dom.font (Dom.paint p))))
      (firstn 3 (Dom.painted (drawn (snd (handleDownload br s)))))
  = let h := Dom.number_of_Z (Dom.height (sizedCanvas posterImage)) in
    [ (Dom.DrawImage posterImage 0 0 1500 h,
       "#000000", "start", "inherit", "sans-serif", 400%Z);
      (Dom.FillText (name s) 750 (h * 0.82),
       "#FFFFFF", "center", "rtl", selectedFont s, 900%Z);
      (Dom.FillText (districtPrefix ++ district s) 750
         (h * 0.82 + 107.14285714285714 / 2),
       "#FFFFFF", "center", "rtl", selectedFont s, 700%Z) ]%float.
Proof.
  intros Hrun. rewrite (succeeds_events _ _ _ _ Hrun). reflexivity.
Qed.

Lemma texts_are_white_centred_rtl_sample :
  map (fun p => (Dom.call p,
                 Dom.fillStyle (Dom.paint p), Dom.textAlign (Dom.paint p),
                 Dom.direction (Dom.paint p),
                 Dom.family (Dom.font (Dom.paint p)),
                 Dom.weight (Dom.font (Dom.paint p))))
      (firstn 3 (Dom.painted (drawn (snd (handleDownload
                                            (Sample.browser 1000 1000 true)
                                            Sample.ready)))))
  = [ (Dom.DrawImage {| Dom.src := "poster-a"; Dom.naturalWidth := 1000;
                        Dom.naturalHeight := 1000 |} 0 0 1500 1500,
       "#000000", "start", "inherit", "sans-serif", 400%Z);
      (Dom.FillText "Test Name" 750 1230,
       "#FFFFFF", "center", "rtl", "Cairo", 900%Z);
      (Dom.FillText (districtPrefix ++ "Example") 750 1283.5714285714287,
       "#FFFFFF", "center", "rtl", "Cairo", 700%Z) ]%float.
Proof.
  exact (texts_are_white_centred_rtl _ _ _ _ (succeeds_sample 1000 1000)).
Defined.

End DownloadEdges.

(** ** The page and its requests in flight *)

Section InFlight.
Import Saving Request Controls Page.
Local Open Scope list_scope.

Lemma generateClick_enabled s :
  generateDisabled s = false ->
  isLoading s = false
  /\ exists file, imageFile s = Some file
                  /\ generateClick s = (generateBegin s, Some (file, symbol s)).
Proof.
  unfold generateDisabled, isFormComplete, generateClick, formIncomplete.
  destruct (imageFile s) as [file|], (truthy (name s)), (truthy (symbol s)),
    (truthy (district s)), (isLoading s); cbn; try discriminate.
  intros _. split; [reflexivity|]. now exists file.
Qed.

Lemma generateResume_shapes sv file symbolText s :
  (exists message,
     generateResume sv file symbolText s
     = setIsLoading false (setError (Some message) s))
  \/ (exists first rest icon,
        truthy icon = true
        /\ generateResume sv file symbolText s
           = setIsLoading false
               (setSymbolImageUrl (Some icon)
                  (setSelectedPoster (Some first)
                     (setGeneratedPosters (Some (first :: rest)) s))))
  \/ (exists first rest,
        generateResume sv file symbolText s
        = setIsLoading false
            (setError (Some msgNoIcon)
               (setSelectedPoster (Some first)
                  (setGeneratedPosters (Some (first :: rest)) s)))).
Proof.
  unfold generateResume, generateTry.
  destruct (fileToBase64 sv file) as [base64Data|e]; [|left; now eexists].
  destruct (Promise_all _ _ _) as [[posterResults symbolImageResult]|e];
    [|left; now eexists].
  destruct posterResults as [[|first rest]|]; try (left; now eexists).
  destruct symbolImageResult as [icon|]; cbn [truthy_opt].
  - destruct (truthy icon) eqn:Hicon.
    + right; left. now exists first, rest, icon.
    + right; right. now exists first, rest.
  - right; right. now exists first, rest.
Qed.

Lemma resultRendered_fields s :
  resultRendered s = true ->
  isLoading s = false /\ truthy_opt (error s) = false
  /\ non_null (generatedPosters s) = true
  /\ truthy_opt (selectedPoster s) = true.
Proof.
  unfold resultRendered.
  destruct (isLoading s), (truthy_opt (error s)), (non_null (generatedPosters s)),
    (truthy_opt (selectedPoster s)); cbn; intros H; try discriminate; auto.
Qed.

Lemma thumbnails_rendered s poster :
  In poster (thumbnails s) -> resultRendered s = true.
Proof.
  unfold thumbnails, outputSection, resultRendered.
  rewrite !flat_map_app.
  destruct (isLoading s), (error s) as [message|],
    (generatedPosters s) as [posters|], (selectedPoster s) as [selected|];
    cbn; try tauto;
    repeat match goal with
           | |- context [if ?b then _ else _] => destruct b; cbn
           end; tauto.
Qed.

Lemma Sound_frame pg pg' :
  generating pg' = generating pg ->
  downloading pg' = downloading pg ->
  isLoading (ui pg') = isLoading (ui pg) ->
  isDownloading (ui pg') = isDownloading (ui pg) ->
  generatedPosters (ui pg') = generatedPosters (ui pg) ->
  selectedPoster (ui pg') = selectedPoster (ui pg) ->
  symbolImageUrl (ui pg') = symbolImageUrl (ui pg) ->
  error (ui pg') = error (ui pg) ->
  Sound pg -> Sound pg'.
Proof.
  intros Hg Hd Hl Hf Hp Hs Hi He [H1 H2 H3 H4].
  constructor; rewrite ?Hg, ?Hd, ?Hl, ?Hf, ?Hp, ?Hs, ?Hi, ?He; assumption.
Qed.

Lemma singleton_split {A : Type} (before after : list A) (x y : A) :
  [y] = before ++ x :: after -> before = [] /\ after = [] /\ x = y.
Proof.
  destruct before as [|b before]; cbn.
  - intros [= -> <-]. auto.
  - intros [= _ H]. destruct before; discriminate H.
Qed.

Lemma act_sound pg pg' : Sound pg -> act pg pg' -> Sound pg'.
Proof.
  intros Hsound Hact.
  destruct Hact as
    [mk file pg | v pg | v pg | v pg | v pg | pg Henabled
    | sv file symbolText before after pg Hwaiting | poster pg Hin
    | pg Hrendered Henabled | br closed posterSrc symbolSrc before after pg Hwaiting
    | pg Hrendered];
    try (now apply (Sound_frame pg)).
  - (* upload *)
    destruct file as [file|]; [|now apply (Sound_frame pg)].
    destruct Hsound as [H1 H2 H3 H4]. constructor; cbn.
    + destruct H1 as [H1|(w & Hg & Hl & _)]; [now left|right].
      exists w. auto.
    + exact H2.
    + discriminate.
    + reflexivity.
  - (* generate *)
    destruct (generateClick_enabled _ Henabled) as (Hidle & file & Hfile & Hclick).
    destruct Hsound as [H1 H2 H3 H4]. rewrite Hclick. constructor; cbn.
    + right. destruct H1 as [(Hg & _)|(w & _ & Hl & _)]; [|congruence].
      rewrite Hg. exists (file, symbol (ui pg)). auto.
    + exact H2.
    + discriminate.
    + reflexivity.
  - (* the calls settle *)
    destruct Hsound as [H1 H2 H3 H4].
    destruct H1 as [(Hg & _)|(w & Hg & Hl & Hp & Hs & Hi)];
      [rewrite Hg in Hwaiting; destruct before; discriminate Hwaiting|].
    rewrite Hg in Hwaiting.
    destruct (singleton_split _ _ _ _ Hwaiting) as (-> & -> & _).
    destruct (generateResume_shapes sv file symbolText (ui pg))
      as [(m & ->)|[(first & rest & icon & Hicon & ->)|(first & rest & ->)]];
      constructor; cbn; auto.
    + rewrite Hp. discriminate.
    + intros _ Hno. congruence.
  - (* thumbnail *)
    pose proof (thumbnails_rendered _ _ Hin) as Hrendered.
    destruct (resultRendered_fields _ Hrendered) as (Hl & He & Hp & Hs).
    destruct Hsound as [H1 H2 H3 H4]. constructor; cbn; auto.
    destruct H1 as [H1|(w & _ & Hl' & _)]; [now left|congruence].
  - (* download *)
    destruct (resultRendered_fields _ Hrendered) as (Hl & He & Hp & Hs).
    destruct Hsound as [H1 H2 H3 H4].
    unfold downloadDisabled in Henabled.
    assert (Hclick : exists p i, downloadClick (ui pg)
                                 = (downloadBegin (ui pg), Some (ui pg, p, i))
                                 /\ truthy_opt (symbolImageUrl (ui pg)) = true).
    { unfold downloadClick.
      destruct (truthy_opt (symbolImageUrl (ui pg))) eqn:Hicon;
        [|rewrite (H3 Hp eq_refl) in He; discriminate He].
      destruct (selectedPoster (ui pg)) as [p|]; [|discriminate Hs].
      destruct (symbolImageUrl (ui pg)) as [i|]; [|discriminate Hicon].
      cbn in Hs, Hicon. rewrite Hs, Hicon. now exists p, i. }
    destruct Hclick as (p & i & -> & Hicon). constructor; cbn.
    + exact H1.
    + right. destruct H2 as [(Hd & _)|(w & _ & Hf)]; [|congruence].
      rewrite Hd. now eexists.
    + intros _ Hno. congruence.
    + exact H4.
  - (* the images settle *)
    destruct Hsound as [H1 H2 H3 H4].
    destruct H2 as [(Hd & _)|(w & Hd & Hf)];
      [rewrite Hd in Hwaiting; destruct before; discriminate Hwaiting|].
    rewrite Hd in Hwaiting.
    destruct (singleton_split _ _ _ _ Hwaiting) as (-> & -> & _).
    unfold downloadSettle.
    destruct (failure _) as [m|] eqn:Hfailure; constructor; cbn; auto.
    intros _ _.
    destruct (failure_is_reported _ _ _ _ _ Hfailure) as ([->|[->| ->]] & _);
      reflexivity.
  - (* reset *)
    destruct Hsound as [H1 H2 H3 H4]. unfold resetRendered in Hrendered.
    constructor; cbn; auto.
    left. destruct H1 as [(Hg & _)|(w & _ & _ & Hp & _)]; [auto|].
      rewrite Hp in Hrendered. discriminate Hrendered.
Qed.

Lemma reached_sound pg : reached pg -> Sound pg.
Proof.
  induction 1 as [|pg pg' _ IH Hact]; [|now apply (act_sound pg)].
  constructor; cbn; auto.
Qed.

Lemma downloadClick_rendered s :
  resultRendered s = true ->
  (non_null (generatedPosters s) = true ->
   truthy_opt (symbolImageUrl s) = false -> truthy_opt (error s) = true) ->
  exists posterSrc symbolSrc,
    canDownload s posterSrc symbolSrc
    /\ downloadClick s = (downloadBegin s, Some (s, posterSrc, symbolSrc)).
Proof.
  intros Hrendered Hicon.
  destruct (resultRendered_fields _ Hrendered) as (Hl & He & Hp & Hs).
  unfold downloadClick, canDownload.
  destruct (truthy_opt (symbolImageUrl s)) eqn:Hi;
    [|rewrite (Hicon Hp eq_refl) in He; discriminate He].
  destruct (selectedPoster s) as [p|]; [|discriminate Hs].
  destruct (symbolImageUrl s) as [i|]; [|discriminate Hi].
  cbn in Hs, Hi. rewrite Hs, Hi. exists p, i. auto.
Qed.

(** Every move of the page is a transition of the component. *)
Lemma act_step pg pg' : Sound pg -> act pg pg' -> step (ui pg) (ui pg').
Proof.
  intros Hsound Hact.
  destruct Hact as
    [mk file pg | v pg | v pg | v pg | v pg | pg Henabled
    | sv file symbolText before after pg Hwaiting | poster pg Hin
    | pg Hrendered Henabled | br closed posterSrc symbolSrc before after pg Hwaiting
    | pg Hrendered]; cbn [ui show]; try (now constructor).
  - destruct (generateClick_enabled _ Henabled) as (_ & file & Hfile & Hclick).
    rewrite Hclick. apply step_generateBegin.
    unfold generateDisabled, isFormComplete in Henabled. unfold formIncomplete.
    destruct (non_null (imageFile (ui pg))), (truthy (name (ui pg))),
      (truthy (symbol (ui pg))), (truthy (district (ui pg)));
      cbn in Henabled |- *; congruence.
  - destruct (downloadClick_rendered _ Hrendered (icon_or_error _ Hsound))
      as (p & i & (Hp & Hi & Htp & Hti) & ->).
    apply step_downloadBegin; [rewrite Hp|rewrite Hi]; assumption.
Qed.

Lemma reached_consistent pg : reached pg -> selection_consistent (ui pg).
Proof.
  induction 1 as [|pg pg' Hreached IH Hact].
  - now apply selection_consistent_cleared.
  - apply (step_consistent (ui pg)); [exact IH|].
    apply act_step; [now apply reached_sound|exact Hact].
Qed.

Lemma outputSection_cases s :
  (isLoading s = true /\ outputSection s = [SpinnerPanel])
  \/ (isLoading s = false
      /\ exists message, error s = Some message /\ truthy message = true
                         /\ outputSection s = [ErrorPanel message])
  \/ (resultRendered s = true
      /\ exists posters selected,
           generatedPosters s = Some posters /\ selectedPoster s = Some selected
           /\ outputSection s = [ResultPanel posters selected]
           /\ thumbnails s = posters)
  \/ (isLoading s = false /\ truthy_opt (error s) = false
      /\ generatedPosters s = None /\ outputSection s = [PlaceholderPanel])
  \/ (isLoading s = false /\ truthy_opt (error s) = false
      /\ non_null (generatedPosters s) = true
      /\ truthy_opt (selectedPoster s) = false
      /\ outputSection s = []).
Proof.
  unfold thumbnails, resultRendered, outputSection.
  destruct (isLoading s); [left; split; [reflexivity|]|right].
  - destruct (error s), (generatedPosters s), (selectedPoster s); reflexivity.
  - destruct (error s) as [message|]; cbn [truthy_opt negb andb].
    + destruct (truthy message) eqn:Hm.
      * left. split; [reflexivity|]. exists message.
        destruct (generatedPosters s), (selectedPoster s); cbn; auto.
      * right.
        destruct (generatedPosters s) as [posters|], (selectedPoster s) as [selected|];
          cbn; try destruct (truthy selected) eqn:Hsel; cbn;
          try (left; split; [reflexivity|]; eexists; eexists; repeat split;
               apply app_nil_r);
          try (right; left; now repeat split);
          right; right; now repeat split.
    + right.
      destruct (generatedPosters s) as [posters|], (selectedPoster s) as [selected|];
        cbn; try destruct (truthy selected) eqn:Hsel; cbn;
        try (left; split; [reflexivity|]; eexists; eexists; repeat split;
             apply app_nil_r);
        try (right; left; now repeat split);
        right; right; now repeat split.
Qed.

(** An equation between two closed pages, each compared with their common
    normal form. *)
Ltac by_normal_form :=
  match goal with
  | |- ?a = ?b => let n := eval cbv in b in transitivity n; reflexivity
  end.

Lemma reached_formFilled : reached Pages.formFilled.
Proof.
  pose proof (reached_act _ _ (reached_act _ _ (reached_act _ _
           (reached_act _ _ reached_boot
              (act_upload (fun _ => "blob:1") (Some Sample.photo) boot))
           (act_typeName "Test Name" _))
           (act_typeSymbol "palm" _))
           (act_typeDistrict "Example" _)) as H.
  match type of H with
  | reached ?pg => replace Pages.formFilled with pg by by_normal_form
  end.
  exact H.
Qed.

Lemma reached_requestInFlight : reached Pages.requestInFlight.
Proof.
  apply (reached_act Pages.formFilled); [exact reached_formFilled|].
  assert (Henabled : generateDisabled (ui Pages.formFilled) = false)
    by reflexivity.
  pose proof (act_clickGenerate Pages.formFilled Henabled) as H.
  match type of H with
  | act _ ?pg => replace Pages.requestInFlight with pg by by_normal_form
  end.
  exact H.
Qed.

Lemma reached_resultsShown : reached Pages.resultsShown.
Proof.
  apply (reached_act Pages.requestInFlight); [exact reached_requestInFlight|].
  pose proof (act_generationSettles
                (Sample.returning (Some ["poster-a"; "poster-b"]) (Some "icon"))
                Sample.photo "palm" [] [] Pages.requestInFlight eq_refl) as H.
  match type of H with
  | act _ ?pg => replace Pages.resultsShown with pg by by_normal_form
  end.
  exact H.
Qed.

Lemma reached_downloadInFlight : reached Pages.downloadInFlight.
Proof.
  apply (reached_act Pages.resultsShown); [exact reached_resultsShown|].
  assert (Hrendered : resultRendered (ui Pages.resultsShown) = true)
    by reflexivity.
  assert (Henabled : downloadDisabled (ui Pages.resultsShown) = false)
    by reflexivity.
  pose proof (act_clickDownload Pages.resultsShown Hrendered Henabled) as H.
  match type of H with
  | act _ ?pg => replace Pages.downloadInFlight with pg by by_normal_form
  end.
  exact H.
Qed.

(** X13.  On every page the user can bring about, at most one generation
    request is in flight, and the loading flag is set exactly while one
    is.  While it is, no candidates, selection or icon are stored, the
    output section shows the spinner alone, the generate button is
    disabled and the reset button is not rendered. *)
Theorem one_generation_at_a_time pg :
  reached pg ->
  (List.length (generating pg) <= 1)%nat
  /\ (isLoading (ui pg) = true <-> generating pg <> [])
  /\ (generating pg <> [] ->
      nothingKept (ui pg)
      /\ outputSection (ui pg) = [SpinnerPanel]
      /\ generateDisabled (ui pg) = true
      /\ resetRendered (ui pg) = false).
Proof.
  intros Hreached.
  destruct (one_generation _ (reached_sound _ Hreached))
    as [(Hg & Hl)|(w & Hg & Hl & Hp & Hs & Hi)]; rewrite Hg, Hl.
  - split; [cbn; lia|]. split; [split; [discriminate|congruence]|congruence].
  - split; [cbn; lia|]. split; [split; [discriminate|reflexivity]|].
    intros _. split; [now repeat split|].
    unfold generateDisabled, resetRendered, outputSection.
    rewrite Hl, Hp. cbn. rewrite orb_true_r.
    destruct (error (ui pg)); auto.
Qed.

Lemma one_generation_at_a_time_sample :
  outputSection (ui Pages.requestInFlight) = [SpinnerPanel].
Proof.
  refine (proj1 (proj2 (proj2 (proj2 (one_generation_at_a_time
            Pages.requestInFlight reached_requestInFlight)) _))).
  discriminate.
Defined.

(** X14.  On every page the user can bring about, at most one download is
    in flight, the downloading flag is set exactly while one is, and the
    download button is disabled for that time.  A reset neither drops the
    pending download nor changes the flag. *)
Theorem one_download_at_a_time pg :
  reached pg ->
  (List.length (downloading pg) <= 1)%nat
  /\ (isDownloading (ui pg) = true <-> downloading pg <> [])
  /\ (downloading pg <> [] -> downloadDisabled (ui pg) = true)
  /\ (downloading (show (handleReset (ui pg)) pg) = downloading pg
      /\ isDownloading (handleReset (ui pg)) = isDownloading (ui pg)).
Proof.
  intros Hreached. unfold downloadDisabled.
  assert (Hreset : downloading (show (handleReset (ui pg)) pg) = downloading pg
                   /\ isDownloading (handleReset (ui pg)) = isDownloading (ui pg))
    by (split; reflexivity).
  revert Hreset. generalize (show (handleReset (ui pg)) pg) (handleReset (ui pg)).
  intros pg' s' Hreset.
  destruct (one_download _ (reached_sound _ Hreached))
    as [(Hd & Hf)|(w & Hd & Hf)]; rewrite Hd, Hf in *.
  - split; [cbn; lia|]. split; [split; [discriminate|congruence]|].
    split; [congruence|exact Hreset].
  - split; [cbn; lia|]. split; [split; [discriminate|reflexivity]|].
    split; [reflexivity|exact Hreset].
Qed.

Lemma one_download_at_a_time_sample :
  isDownloading (ui Pages.downloadInFlight) = true
  <-> downloading Pages.downloadInFlight <> [].
Proof.
  exact (proj1 (proj2 (one_download_at_a_time
                         Pages.downloadInFlight reached_downloadInFlight))).
Defined.

(** X15.  Whenever the result panel is rendered, an icon is stored next
    to the selected candidate, which is one of the thumbnails: a click on
    the download button always passes the guard of line 77 and starts a
    download of that candidate.  In particular candidates kept after the
    icon call returned nothing are never on display. *)
Theorem rendered_results_can_be_downloaded pg :
  reached pg ->
  resultRendered (ui pg) = true ->
  exists posters posterSrc symbolSrc,
    generatedPosters (ui pg) = Some posters
    /\ thumbnails (ui pg) = posters
    /\ In posterSrc posters
    /\ canDownload (ui pg) posterSrc symbolSrc
    /\ downloadClick (ui pg)
       = (downloadBegin (ui pg), Some (ui pg, posterSrc, symbolSrc)).
Proof.
  intros Hreached Hrendered.
  destruct (downloadClick_rendered _ Hrendered
              (icon_or_error _ (reached_sound _ Hreached)))
    as (p & i & Hcan & Hclick).
  destruct (reached_consistent _ Hreached p (proj1 Hcan)) as (posters & Hp & Hin).
  exists posters, p, i. repeat split; try assumption; try apply Hcan.
  destruct (outputSection_cases (ui pg))
    as [(Hl & _)|[(_ & m & He & Hm & _)|[(_ & ps & sel & Hps & _ & _ & Ht)
       |[(_ & _ & Hnone & _)|(_ & _ & _ & Hs & _)]]]];
    destruct (resultRendered_fields _ Hrendered) as (Hl' & He' & Hp' & Hs');
    try congruence.
  rewrite He in He'. cbn in He'. congruence.
Qed.

Lemma rendered_results_can_be_downloaded_sample :
  exists posters posterSrc symbolSrc,
    generatedPosters (ui Pages.resultsShown) = Some posters
    /\ thumbnails (ui Pages.resultsShown) = posters
    /\ In posterSrc posters
    /\ canDownload (ui Pages.resultsShown) posterSrc symbolSrc
    /\ downloadClick (ui Pages.resultsShown)
       = (downloadBegin (ui Pages.resultsShown),
          Some (ui Pages.resultsShown, posterSrc, symbolSrc)).
Proof.
  assert (Hrendered : resultRendered (ui Pages.resultsShown) = true)
    by reflexivity.
  exact (rendered_results_can_be_downloaded Pages.resultsShown
           reached_resultsShown Hrendered).
Defined.

(** X16.  On every page the user can bring about, the output section shows
    exactly one panel, unless the selected candidate is the empty string
    (which a service must have returned among the candidates): then it
    shows nothing. *)
Theorem output_is_blank_only_for_an_empty_candidate pg :
  reached pg ->
  (exists panel, outputSection (ui pg) = [panel])
  \/ (outputSection (ui pg) = []
      /\ selectedPoster (ui pg) = Some ""
      /\ exists posters, generatedPosters (ui pg) = Some posters /\ In "" posters).
Proof.
  intros Hreached.
  destruct (outputSection_cases (ui pg))
    as [(_ & ->)|[(_ & m & _ & _ & ->)|[(_ & ps & sel & _ & _ & -> & _)
       |[(_ & _ & _ & ->)|(_ & _ & Hp & Hs & Hblank)]]]];
    try (left; now eexists).
  right. split; [exact Hblank|].
  pose proof (selection_with_set _ (reached_sound _ Hreached)) as Hboth.
  rewrite Hp in Hboth.
  destruct (selectedPoster (ui pg)) as [sel|] eqn:Hsel; [|discriminate Hboth].
  assert (sel = "") as ->.
  { cbn in Hs. unfold truthy in Hs.
    destruct (String.eqb_spec sel ""); [assumption|discriminate Hs]. }
  split; [reflexivity|].
  exact (reached_consistent _ Hreached "" Hsel).
Qed.

Lemma output_is_blank_only_for_an_empty_candidate_sample :
  (exists panel, outputSection (ui Pages.resultsShown) = [panel])
  \/ (outputSection (ui Pages.resultsShown) = []
      /\ selectedPoster (ui Pages.resultsShown) = Some ""
      /\ exists posters, generatedPosters (ui Pages.resultsShown) = Some posters
                         /\ In "" posters).
Proof.
  exact (output_is_blank_only_for_an_empty_candidate Pages.resultsShown
           reached_resultsShown).
Defined.

(** X17.  In any state the output section shows at most one panel: the
    spinner while loading; otherwise the error panel if the error is a
    non-empty message; otherwise the result panel, with one thumbnail per
    stored candidate, if candidates are stored and the selection is
    non-empty; the placeholder if no candidates are stored; and nothing if
    candidates are stored but the selection is missing or empty. *)
Theorem output_shows_at_most_one_panel s :
  (isLoading s = true /\ outputSection s = [SpinnerPanel])
  \/ (isLoading s = false
      /\ exists message, error s = Some message /\ truthy message = true
                         /\ outputSection s = [ErrorPanel message])
  \/ (resultRendered s = true
      /\ exists posters selected,
           generatedPosters s = Some posters /\ selectedPoster s = Some selected
           /\ outputSection s = [ResultPanel posters selected]
           /\ thumbnails s = posters)
  \/ (isLoading s = false /\ truthy_opt (error s) = false
      /\ generatedPosters s = None /\ outputSection s = [PlaceholderPanel])
  \/ (isLoading s = false /\ truthy_opt (error s) = false
      /\ non_null (generatedPosters s) = true
      /\ truthy_opt (selectedPoster s) = false
      /\ outputSection s = []).
Proof. exact (outputSection_cases s). Qed.

(** X18.  Generating, clicking thumbnails and downloading compose: after a
    generation that returned candidates and an icon and any clicks on
    thumbnails, a download whose images decode draws the candidate clicked
    last (the first one if none was clicked), then the name and the
    caption of the form, then the icon; it saves "my-election-poster.png"
    with the content [toDataURL('image/png')] gives for the canvas, 1500
    wide: a PNG when the canvas has at least one row and the browser can
    serialise it, the bare "data:," when the canvas has no rows.  The
    candidates, the selection and the icon stay stored, with no error and
    the downloading flag off. *)
Theorem generate_pick_download sv br s first rest icon picks pw ph iw ih :
  settles sv s (Fulfilled (Some (first :: rest))) (Fulfilled (Some icon)) ->
  truthy icon = true ->
  truthy (last picks first) = true ->
  decode br (last picks first) = Loaded pw ph ->
  decode br icon = Loaded iw ih ->
  context2d br = true ->
  let chosen := last picks first in
  let s1 := selectAll picks (handleGenerateClick sv s) in
  let s2 := fst (handleDownload br s1) in
  let o := snd (handleDownload br s1) in
  Dom.timeline (drawn o)
  = [ Dom.DrewImage {| Dom.src := chosen; Dom.naturalWidth := pw;
                       Dom.naturalHeight := ph |};
      Dom.ShadowOn;
      Dom.DrewText (name s);
      Dom.DrewText (districtPrefix ++ district s)%string;
      Dom.ShadowOff;
      Dom.DrewImage {| Dom.src := icon; Dom.naturalWidth := iw;
                       Dom.naturalHeight := ih |} ]
  /\ (exists f, saved o = Some f
                /\ download f = "my-election-poster.png"
                /\ surface f = sizedCanvas {| Dom.src := chosen;
                                              Dom.naturalWidth := pw;
                                              Dom.naturalHeight := ph |}
                /\ Dom.width (surface f) = 1500%Z
                /\ pixels f = drawn o
                /\ href f = Dom.toDataURL (serialises br) (surface f) "image/png"
                /\ (Dom.height (surface f) = 0%Z -> href f = Dom.NoData)
                /\ (Dom.height (surface f) <> 0%Z ->
                    serialises br (surface f) = true ->
                    href f = Dom.Encoded "image/png" (surface f)))
  /\ error s2 = None
  /\ isDownloading s2 = false
  /\ generatedPosters s2 = Some (first :: rest)
  /\ selectedPoster s2 = Some chosen
  /\ symbolImageUrl s2 = Some icon.
Proof.
  intros Hsettles Hicon Hchosen Hposter Hsymbol Hctx chosen s1 s2 o.
  subst s2 o.
  assert (Hs1 : s1 = setSelectedPoster (Some chosen)
                       (setIsLoading false
                          (setSymbolImageUrl (Some icon)
                             (setSelectedPoster (Some first)
                                (setGeneratedPosters (Some (first :: rest))
                                   (generateBegin s)))))).
  { subst s1. rewrite (handleGenerateClick_settled _ _ _ _ Hsettles).
    cbn [Promise_all truthy_opt]. rewrite Hicon. cbv zeta.
    now apply selectAll_selection. }
  assert (Hrun : succeeds br s1
                   {| Dom.src := chosen; Dom.naturalWidth := pw;
                      Dom.naturalHeight := ph |}
                   {| Dom.src := icon; Dom.naturalWidth := iw;
                      Dom.naturalHeight := ih |}).
  { rewrite Hs1. repeat split; assumption. }
  pose proof (succeeds_events _ _ _ _ Hrun) as Hevents.
  destruct Hrun as (Hcan & _).
  rewrite (handleDownload_guarded _ _ _ _ Hcan) in Hevents |- *.
  cbn [fst snd] in Hevents |- *. rewrite Hevents.
  unfold downloadSettle. cbv zeta. cbn [failure drawn saved].
  clearbody s1. subst s1.
  split; [reflexivity|].
  split; [|repeat split].
  eexists. split; [reflexivity|]. cbn [download surface pixels href].
  do 5 (split; [reflexivity|]).
  unfold Dom.toDataURL.
  change (Dom.width (sizedCanvas _)) with 1500%Z. cbn [Z.eqb orb].
  split.
  - intros ->. reflexivity.
  - intros Hrows ->.
    destruct (Z.eqb_spec (Dom.height (sizedCanvas
                {| Dom.src := chosen; Dom.naturalWidth := pw;
                   Dom.naturalHeight := ph |})) 0); [contradiction|reflexivity].
Qed.

Lemma generate_pick_download_sample :
  let sv := Sample.returning (Some ["poster-a"; "poster-b"]) (Some "icon") in
  let s1 := selectAll ["poster-b"] (handleGenerateClick sv Sample.filled) in
  selectedPoster (fst (handleDownload (Sample.browser 1000 1000 true) s1))
  = Some "poster-b".
Proof.
  exact (proj1 (proj2 (proj2 (proj2 (proj2 (proj2
           (generate_pick_download
              (Sample.returning (Some ["poster-a"; "poster-b"]) (Some "icon"))
              (Sample.browser 1000 1000 true) Sample.filled
              "poster-a" ["poster-b"] "icon" ["poster-b"] 1000 1000 64 64
              (settles_sample _ _) eq_refl eq_refl eq_refl eq_refl eq_refl))))))).
Defined.

(** A poster 3001 wide and 1 high gives a canvas of 1500 by 0: the file is
    still handed to the browser, with "data:," for content. *)
Example flat_poster_saves_no_data :
  option_map (fun f => (download f, surface f, href f))
    (saved (snd (handleDownload (Sample.browser 3001 1 true) Sample.ready)))
  = Some ("my-election-poster.png",
          {| Dom.width := 1500; Dom.height := 0 |}, Dom.NoData).
Proof. vm_compute. reflexivity. Qed.

End InFlight.
